(** * PyKonalEQ: the travel-time inventory [TTInventory]

    A shallow embedding of [pykonal_eq/inventory.py] and the properties of
    its windowed read, its geometry checks and its node cache.

    Modelling conventions.
    - Coordinates are [float64] in the program.  They are modelled as exact
      rationals [Q]; numerical comparison [==] of numpy is [Qeq], so two
      coordinate vectors are "the same" when they are component-wise [==].
    - Index vectors are integers [Z]; [astype(np.int32)] is written out as
      two's-complement wrap-around.
    - The HDF5 file is a record with the [meta] group and the [data] group;
      the [data] group is a finite map from dataset names to 3-D arrays.
    - Python exceptions are values of [exn]; a method that can raise returns
      a [result], and a method that also mutates the file returns the
      outcome together with the object after the call.
    - Dataset keys are plain names.  The lifetime of the handle ([close],
      [__del__], the context manager) is outside the model: every method is
      taken on an open handle. *)

From Stdlib Require Import ZArith QArith Qround Lia Lqa String.
From stdpp Require Import base option list gmap strings.

Local Open Scope string_scope.
Local Open Scope Z_scope.

(** ** Three-component vectors (numpy arrays of shape (3,)) *)

Inductive axis : Type := Ax0 | Ax1 | Ax2.

Definition vec3 (A : Type) : Type := (A * A * A)%type.

Definition v3get {A} (v : vec3 A) (ax : axis) : A :=
  let '(a, b, c) := v in
  match ax with Ax0 => a | Ax1 => b | Ax2 => c end.

Definition v3map {A B} (f : A -> B) (v : vec3 A) : vec3 B :=
  let '(a, b, c) := v in (f a, f b, f c).

Definition v3zip {A B C} (f : A -> B -> C) (u : vec3 A) (v : vec3 B) : vec3 C :=
  let '(a, b, c) := u in
  let '(a', b', c') := v in (f a a', f b b', f c c').

(** [np.all] and [np.any] on a boolean array of shape (3,). *)
Definition np_all (v : vec3 bool) : bool :=
  let '(a, b, c) := v in a && b && c.

Definition np_any (v : vec3 bool) : bool :=
  let '(a, b, c) := v in a || b || c.

(** Component-wise numerical equality of coordinate vectors. *)
Definition v3Qeq (u v : vec3 Q) : Prop :=
  forall ax, (v3get u ax == v3get v ax)%Q.

(** ** Integer conversions and clipping *)

Definition INT32_MAX : Z := 2147483647.
Definition INT32_MIN : Z := -2147483648.

(** [x.astype(np.int32)] of an integral value. *)
Definition astype_int32 (z : Z) : Z :=
  (z + 2147483648) mod 4294967296 - 2147483648.

(** [np.clip(a, a_min, a_max)] is [minimum(maximum(a, a_min), a_max)]. *)
Definition np_clip (a a_min a_max : Z) : Z := Z.min (Z.max a a_min) a_max.

(** ** Arrays with three leading axes

    The element type [V] is a float for a scalar field and the trailing
    3-vector for a vector field; the three slices of [read] never touch it. *)

Abbreviation array3 V := (list (list (list V))).

(** Python's normalisation of one slice bound against a length. *)
Definition slice_bound (len i : Z) : Z :=
  if i <? 0 then Z.max 0 (i + len) else Z.min i len.

(** [l[start:stop]] *)
Definition py_slice {A} (start stop : Z) (l : list A) : list A :=
  let len := Z.of_nat (length l) in
  let a := slice_bound len start in
  let b := slice_bound len stop in
  take (Z.to_nat (b - a)) (drop (Z.to_nat a) l).

(** [a[s0:e0, s1:e1, s2:e2]] *)
Definition slice3 {V} (idx_start idx_end : vec3 Z) (a : array3 V) : array3 V :=
  let '(s0, s1, s2) := idx_start in
  let '(e0, e1, e2) := idx_end in
  (fun plane => (fun row => py_slice s2 e2 row) <$> py_slice s1 e1 plane)
    <$> py_slice s0 e0 a.

(** [a[i, j, k]] for in-range, non-negative indices. *)
Definition array3_get {V} (a : array3 V) (i j k : nat) : option V :=
  plane ← a !! i; row ← plane !! j; row !! k.

(** [a.shape[:3] == n] *)
Definition has_shape {V} (n : vec3 Z) (a : array3 V) : Prop :=
  let '(n0, n1, n2) := n in
  Z.of_nat (length a) = n0 /\
  Forall (fun plane =>
            Z.of_nat (length plane) = n1 /\
            Forall (fun row : list V => Z.of_nat (length row) = n2) plane) a.

(** ** Exceptions *)

Inductive exn : Type :=
| KeyError (name : string)
| ValueError (msg : string)
| AssertionError.

Inductive result (A : Type) : Type :=
| Ok (a : A)
| Raise (e : exn).
Arguments Ok {A} a.
Arguments Raise {A} e.

Definition msg_invalid_range : string :=
  "All values of min_coords must satisfy min_coords < max_coords.".

Definition msg_unrecognized_field_type (t : string) : string :=
  ("Unrecognized field type: " ++ t)%string.

Definition msg_name_exists : string :=
  "Unable to create dataset (name already exists)".

(** The error names of the specification, in terms of what Python raises. *)
Definition GeometryUnavailableError : exn := KeyError "meta".
Definition KeyNotFoundError (key : string) : exn := KeyError ("data/" ++ key)%string.
Definition InvalidRangeError : exn := ValueError msg_invalid_range.
Definition GeometryMismatchError : exn := AssertionError.
Definition KeyConflictError : exn := ValueError msg_name_exists.

(** ** The field object exchanged with the caller *)

Module Field.

Record t (V : Type) : Type := mk {
  coord_sys : string;
  field_type : string;
  min_coords : vec3 Q;
  node_intervals : vec3 Q;
  npts : vec3 Z;
  values : array3 V
}.
Arguments mk {V}.
Arguments coord_sys {V}.
Arguments field_type {V}.
Arguments min_coords {V}.
Arguments node_intervals {V}.
Arguments npts {V}.
Arguments values {V}.

(** Modelled from the spec: the derived upper corner of a field's grid,
    [min_coords + node_intervals * (npts - 1)]; the field class belongs to
    the pykonal package. *)
Definition max_coords {V} (f : t V) : vec3 Q :=
  v3zip Qplus (min_coords f)
    (v3zip Qmult (node_intervals f)
       (v3map (fun n => inject_Z (n - 1)) (npts f))).

(** Modelled from the spec: [ScalarField3D(coord_sys=...)] and
    [VectorField3D(coord_sys=...)] build a bare field that knows only its
    tags; the other attributes are assigned afterwards. *)
Definition ScalarField3D {V} (cs : string) : t V :=
  mk cs "scalar" (0, 0, 0)%Q (0, 0, 0)%Q (0, 0, 0) [].
Definition VectorField3D {V} (cs : string) : t V :=
  mk cs "vector" (0, 0, 0)%Q (0, 0, 0)%Q (0, 0, 0) [].

Definition set_min_coords {V} (f : t V) (x : vec3 Q) : t V :=
  mk (coord_sys f) (field_type f) x (node_intervals f) (npts f) (values f).
Definition set_node_intervals {V} (f : t V) (x : vec3 Q) : t V :=
  mk (coord_sys f) (field_type f) (min_coords f) x (npts f) (values f).
Definition set_npts {V} (f : t V) (x : vec3 Z) : t V :=
  mk (coord_sys f) (field_type f) (min_coords f) (node_intervals f) x (values f).
Definition set_values {V} (f : t V) (x : array3 V) : t V :=
  mk (coord_sys f) (field_type f) (min_coords f) (node_intervals f) (npts f) x.

(** Two fields with the same tags, numerically equal geometry and the
    same values. *)
Definition same {V} (f g : t V) : Prop :=
  coord_sys f = coord_sys g /\
  field_type f = field_type g /\
  v3Qeq (min_coords f) (min_coords g) /\
  v3Qeq (node_intervals f) (node_intervals g) /\
  npts f = npts g /\
  values f = values g.

End Field.

(** ** The HDF5 file behind the inventory *)

Module H5.

(** The [meta] group: two attributes and three datasets. *)
Record meta_group : Type := mk_meta {
  attr_coord_sys : string;
  attr_field_type : string;
  ds_min_coords : vec3 Q;
  ds_node_intervals : vec3 Q;
  ds_npts : vec3 Z
}.

Record File (V : Type) : Type := mk_file {
  meta : option meta_group;
  data : option (gmap string (array3 V))
}.
Arguments mk_file {V}.
Arguments meta {V}.
Arguments data {V}.

Definition empty {V} : File V := mk_file None None.

(** [f5["data/<key>"]] when it is there. *)
Definition dataset {V} (f5 : File V) (key : string) : option (array3 V) :=
  d ← data f5; d !! key.

End H5.

(** ** The class [TTInventory] *)

Module TTInventory.

(** [nodes[i, j, k]] is the coordinate triple of grid node (i, j, k). *)
Definition mesh : Type := array3 (vec3 Q).

(** The instance attributes.  [_nodes] is [None] until the attribute
    exists ([hasattr(self, "_nodes")] is false). *)
Record t (V : Type) : Type := mk {
  _mode : string;
  _path : string;
  _f5 : H5.File V;
  _nodes : option mesh
}.
Arguments mk {V}.
Arguments _mode {V}.
Arguments _path {V}.
Arguments _f5 {V}.
Arguments _nodes {V}.

Section Methods.
Context {V : Type}.

(** *** Computations on the open file that may raise and may write *)

Definition M (A : Type) : Type := H5.File V -> result A * H5.File V.

Definition ret {A} (a : A) : M A := fun f5 => (Ok a, f5).

Definition raise {A} (e : exn) : M A := fun f5 => (Raise e, f5).

Definition bind {A B} (m : M A) (k : A -> M B) : M B :=
  fun f5 =>
    match m f5 with
    | (Ok a, f5') => k a f5'
    | (Raise e, f5') => (Raise e, f5')
    end.

Notation "x <- m ;; k" := (bind m (fun x => k))
  (at level 100, m at next level, right associativity).
Notation "m ;;; k" := (bind m (fun _ => k))
  (at level 100, right associativity).

(** [assert b] *)
Definition py_assert (b : bool) : M unit :=
  if b then ret tt else raise AssertionError.

(** ["meta" in f5.keys()] *)
Definition contains_meta : M bool :=
  fun f5 => (Ok (bool_decide (is_Some (H5.meta f5))), f5).

(** [f5["meta"]] *)
Definition open_meta : M H5.meta_group :=
  fun f5 =>
    match H5.meta f5 with
    | Some g => (Ok g, f5)
    | None => (Raise (KeyError "meta"), f5)
    end.

(** [f5.create_group("meta")] followed by the two attribute
    assignments and the three [create_dataset] calls of [add]. *)
Definition create_meta (field : Field.t V) : M unit :=
  fun f5 =>
    (Ok tt,
     H5.mk_file
       (Some (H5.mk_meta (Field.coord_sys field) (Field.field_type field)
                (Field.min_coords field) (Field.node_intervals field)
                (Field.npts field)))
       (H5.data f5)).

(** [f5.require_group("data")] *)
Definition require_group_data : M unit :=
  fun f5 =>
    match H5.data f5 with
    | Some _ => (Ok tt, f5)
    | None => (Ok tt, H5.mk_file (H5.meta f5) (Some ∅))
    end.

(** [group.create_dataset(key, data=values)] on the [data] group: the
    store rejects a name that exists. *)
Definition create_dataset (key : string) (values : array3 V) : M unit :=
  fun f5 =>
    match H5.data f5 with
    | None => (Raise (KeyError "data"), f5)
    | Some d =>
        match d !! key with
        | Some _ => (Raise (ValueError msg_name_exists), f5)
        | None => (Ok tt, H5.mk_file (H5.meta f5) (Some (<[key := values]> d)))
        end
    end.

(** The two loops of assertions in the [else] branch of [add]. *)
Definition assert_same_geometry (field : Field.t V) (group : H5.meta_group) : M unit :=
  py_assert (String.eqb (Field.coord_sys field) (H5.attr_coord_sys group)) ;;;
  py_assert (String.eqb (Field.field_type field) (H5.attr_field_type group)) ;;;
  py_assert (np_all (v3zip Qeq_bool (Field.min_coords field) (H5.ds_min_coords group))) ;;;
  py_assert (np_all (v3zip Qeq_bool (Field.node_intervals field) (H5.ds_node_intervals group))) ;;;
  py_assert (np_all (v3zip Z.eqb (Field.npts field) (H5.ds_npts group))).

Definition add_f5 (field : Field.t V) (key : string) : M bool :=
  has_meta <- contains_meta ;;
  (if negb has_meta
   then create_meta field
   else (group <- open_meta ;; assert_same_geometry field group)) ;;;
  require_group_data ;;;
  create_dataset key (Field.values field) ;;;
  ret true.

Definition with_f5 (self : t V) (f5 : H5.File V) : t V :=
  mk (_mode self) (_path self) f5 (_nodes self).

(** [TTInventory.add]: the outcome and the object after the call. *)
Definition add (self : t V) (field : Field.t V) (key : string)
  : result bool * t V :=
  let '(r, f5) := add_f5 field key (_f5 self) in (r, with_f5 self f5).

(** *** [read] *)

(** [np.any(min_coords >= max_coords)] when both bounds are given. *)
Definition invalid_range (min_coords max_coords : option (vec3 Q)) : bool :=
  match min_coords, max_coords with
  | Some lo, Some hi => np_any (v3zip (fun a b => Qle_bool b a) lo hi)
  | _, _ => false
  end.

(** [(x - _min_coords) / _node_intervals], element-wise. *)
Definition grid_quotient (g : H5.meta_group) (x : vec3 Q) : vec3 Q :=
  v3zip Qdiv (v3zip Qminus x (H5.ds_min_coords g)) (H5.ds_node_intervals g).

Definition idx_start_of (g : H5.meta_group) (min_coords : option (vec3 Q)) : vec3 Z :=
  match min_coords with
  | Some lo =>
      let idx_start := grid_quotient g lo in
      let idx_start := v3map Qfloor idx_start in
      let idx_start := v3map astype_int32 idx_start in
      v3zip (fun a n => np_clip a 0 (n - 1)) idx_start (H5.ds_npts g)
  | None => (0, 0, 0)
  end.

Definition idx_end_of (g : H5.meta_group) (idx_start : vec3 Z)
    (max_coords : option (vec3 Q)) : vec3 Z :=
  match max_coords with
  | Some hi =>
      let idx_end := grid_quotient g hi in
      let idx_end := v3map (fun q => Qceiling q + 1) idx_end in
      let idx_end := v3map astype_int32 idx_end in
      v3zip (fun a bounds => np_clip a (fst bounds) (snd bounds)) idx_end
        (v3zip pair (v3map (fun s => s + 1) idx_start) (H5.ds_npts g))
  | None => H5.ds_npts g
  end.

Definition new_field (_field_type _coord_sys : string) : result (Field.t V) :=
  if String.eqb _field_type "scalar" then Ok (Field.ScalarField3D _coord_sys)
  else if String.eqb _field_type "vector" then Ok (Field.VectorField3D _coord_sys)
  else Raise (ValueError (msg_unrecognized_field_type _field_type)).

Definition read (self : t V) (key : string)
    (min_coords max_coords : option (vec3 Q)) : result (Field.t V) :=
  match H5.meta (_f5 self) with
  | None => Raise (KeyError "meta")
  | Some g =>
      let _coord_sys := H5.attr_coord_sys g in
      let _field_type := H5.attr_field_type g in
      let _min_coords := H5.ds_min_coords g in
      let _node_intervals := H5.ds_node_intervals g in
      let _npts := H5.ds_npts g in
      if invalid_range min_coords max_coords
      then Raise (ValueError msg_invalid_range)
      else
        let idx_start := idx_start_of g min_coords in
        let idx_end := idx_end_of g idx_start max_coords in
        match new_field _field_type _coord_sys with
        | Raise e => Raise e
        | Ok field =>
            let field :=
              Field.set_min_coords field
                (v3zip Qplus _min_coords
                   (v3zip Qmult (v3map inject_Z idx_start) _node_intervals)) in
            let field := Field.set_node_intervals field _node_intervals in
            let field := Field.set_npts field (v3zip Z.sub idx_end idx_start) in
            match H5.dataset (_f5 self) key with
            | None => Raise (KeyError ("data/" ++ key)%string)
            | Some dset =>
                Ok (Field.set_values field (slice3 idx_start idx_end dset))
            end
        end
  end.

(** *** The geometry properties and the cached node mesh *)

Definition min_coords (self : t V) : result (vec3 Q) :=
  match H5.meta (_f5 self) with
  | Some g => Ok (H5.ds_min_coords g)
  | None => Raise (KeyError "meta/min_coords")
  end.

Definition node_intervals (self : t V) : result (vec3 Q) :=
  match H5.meta (_f5 self) with
  | Some g => Ok (H5.ds_node_intervals g)
  | None => Raise (KeyError "meta/node_intervals")
  end.

Definition npts (self : t V) : result (vec3 Z) :=
  match H5.meta (_f5 self) with
  | Some g => Ok (H5.ds_npts g)
  | None => Raise (KeyError "meta/npts")
  end.

Definition max_coords (self : t V) : result (vec3 Q) :=
  match min_coords self with
  | Raise e => Raise e
  | Ok lo =>
      match node_intervals self with
      | Raise e => Raise e
      | Ok d =>
          match npts self with
          | Raise e => Raise e
          | Ok n =>
              Ok (v3zip Qplus lo
                    (v3zip Qmult d (v3map (fun k => inject_Z (k - 1)) n)))
          end
      end
  end.

(** [np.linspace(start, stop, num)] with the end point included. *)
Definition np_linspace (start stop : Q) (num : Z) : list Q :=
  let step := ((stop - start) / inject_Z (num - 1))%Q in
  let y := (fun i => (inject_Z i * step + start)%Q) <$> seqZ 0 num in
  if 1 <? num then <[Z.to_nat (num - 1) := stop]> y else y.

(** [np.moveaxis(np.stack(np.meshgrid(xs, ys, zs, indexing="ij")), 0, -1)] *)
Definition np_meshgrid_ij (xs ys zs : list Q) : mesh :=
  (fun x => (fun y => (fun z => (x, y, z)) <$> zs) <$> ys) <$> xs.

Definition build_nodes (self : t V) : result mesh :=
  match min_coords self with
  | Raise e => Raise e
  | Ok lo =>
      match max_coords self with
      | Raise e => Raise e
      | Ok hi =>
          match npts self with
          | Raise e => Raise e
          | Ok n =>
              let axis_nodes ax :=
                np_linspace (v3get lo ax) (v3get hi ax) (v3get n ax) in
              Ok (np_meshgrid_ij (axis_nodes Ax0) (axis_nodes Ax1) (axis_nodes Ax2))
          end
      end
  end.

(** The property [nodes]: built on first access, then kept in [_nodes]. *)
Definition nodes (self : t V) : result mesh * t V :=
  match _nodes self with
  | Some cached => (Ok cached, self)
  | None =>
      match build_nodes self with
      | Raise e => (Raise e, self)
      | Ok built =>
          (Ok built, mk (_mode self) (_path self) (_f5 self) (Some built))
      end
  end.

(** The setter of [mode].  [reopened] is what [h5py.File(self.path,
    mode=value)] yields: the file as it is found under the new mode, or
    the exception of a failed open. *)
Definition set_mode (self : t V) (value : string)
    (reopened : result (H5.File V)) : result unit * t V :=
  let self := mk value (_path self) (_f5 self) (_nodes self) in
  match reopened with
  | Ok f5 => (Ok tt, with_f5 self f5)
  | Raise e => (Raise e, self)
  end.

End Methods.

End TTInventory.

(** ** Vocabulary of the statements *)

(** The values [astype(np.int32)] leaves as they are. *)
Definition fits_int32 (z : Z) : Prop := INT32_MIN <= z <= INT32_MAX.

(** A half-open index window that lies inside a grid of [n] points. *)
Definition window_inside (idx_start idx_end n : vec3 Z) : Prop :=
  forall ax, 0 <= v3get idx_start ax <= v3get idx_end ax /\
             v3get idx_end ax <= v3get n ax.

(** The data model of a grid geometry: strictly positive spacing and at
    least one sample per axis. *)
Definition positive_intervals (g : H5.meta_group) : Prop :=
  forall ax, (0 < v3get (H5.ds_node_intervals g) ax)%Q.

Definition positive_npts (g : H5.meta_group) : Prop :=
  forall ax, 1 <= v3get (H5.ds_npts g) ax.

(** The number of samples per axis is itself an int32 value. *)
Definition npts_fit_int32 (g : H5.meta_group) : Prop :=
  forall ax, v3get (H5.ds_npts g) ax <= INT32_MAX.

(** The two field types [read] can rebuild. *)
Definition recognized_field_type (t : string) : Prop :=
  t = "scalar" \/ t = "vector".

(** The coordinate of the node with index [i] on one axis of grid [g]. *)
Definition node_coord (g : H5.meta_group) (ax : axis) (i : Z) : Q :=
  (v3get (H5.ds_min_coords g) ax + inject_Z i * v3get (H5.ds_node_intervals g) ax)%Q.

(** The coordinate of the last node of the grid on one axis. *)
Definition last_coord (g : H5.meta_group) (ax : axis) : Q :=
  (v3get (H5.ds_min_coords g) ax +
   v3get (H5.ds_node_intervals g) ax * inject_Z (v3get (H5.ds_npts g) ax - 1))%Q.

(** [(x - recorded_min) / node_intervals] on one axis. *)
Definition quotient_on (g : H5.meta_group) (x : vec3 Q) (ax : axis) : Q :=
  ((v3get x ax - v3get (H5.ds_min_coords g) ax) / v3get (H5.ds_node_intervals g) ax)%Q.

(** The field agrees with the recorded geometry and tags: what the
    assertions of [add] test. *)
Definition geometry_matches {V} (field : Field.t V) (g : H5.meta_group) : Prop :=
  Field.coord_sys field = H5.attr_coord_sys g /\
  Field.field_type field = H5.attr_field_type g /\
  v3Qeq (Field.min_coords field) (H5.ds_min_coords g) /\
  v3Qeq (Field.node_intervals field) (H5.ds_node_intervals g) /\
  Field.npts field = H5.ds_npts g.

(** *** What the methods build *)

(** The field [read] assembles from the recorded geometry [g] and the
    stored array [dset]. *)
Definition window_field {V} (g : H5.meta_group) (dset : array3 V)
    (min_coords max_coords : option (vec3 Q)) : Field.t V :=
  let idx_start := TTInventory.idx_start_of g min_coords in
  let idx_end := TTInventory.idx_end_of g idx_start max_coords in
  Field.mk (H5.attr_coord_sys g) (H5.attr_field_type g)
    (v3zip Qplus (H5.ds_min_coords g)
       (v3zip Qmult (v3map inject_Z idx_start) (H5.ds_node_intervals g)))
    (H5.ds_node_intervals g)
    (v3zip Z.sub idx_end idx_start)
    (slice3 idx_start idx_end dset).

(** The group [add] records on the first write. *)
Definition meta_of_field {V} (field : Field.t V) : H5.meta_group :=
  H5.mk_meta (Field.coord_sys field) (Field.field_type field)
    (Field.min_coords field) (Field.node_intervals field) (Field.npts field).

(** The [data] group after a dataset has been created in it. *)
Definition data_with {V} (f5 : H5.File V) (key : string) (values : array3 V)
  : option (gmap string (array3 V)) :=
  Some (<[key := values]> (default ∅ (H5.data f5))).

(** The recorded upper corner, as the property [max_coords] computes it. *)
Definition recorded_max_coords (g : H5.meta_group) : vec3 Q :=
  v3zip Qplus (H5.ds_min_coords g)
    (v3zip Qmult (H5.ds_node_intervals g)
       (v3map (fun k => inject_Z (k - 1)) (H5.ds_npts g))).

(** *** The index window in the words of the specification *)

(** "clamped to [lo, hi]" *)
Definition clamp (x lo hi : Z) : Z := Z.max lo (Z.min x hi).

(** "idx_start = floor((min_coords - recorded_min) / node_intervals),
    clamped to [0, npts-1] per axis; else (0,0,0)" *)
Definition spec_idx_start (g : H5.meta_group) (min_coords : option (vec3 Q))
    (ax : axis) : Z :=
  match min_coords with
  | Some lo => clamp (Qfloor (quotient_on g lo ax)) 0 (v3get (H5.ds_npts g) ax - 1)
  | None => 0
  end.

(** "idx_end = ceil((max_coords - recorded_min) / node_intervals) + 1,
    clamped to [idx_start+1, npts] per axis; else npts" *)
Definition spec_idx_end (g : H5.meta_group) (idx_start : vec3 Z)
    (max_coords : option (vec3 Q)) (ax : axis) : Z :=
  match max_coords with
  | Some hi =>
      clamp (Qceiling (quotient_on g hi ax) + 1)
        (v3get idx_start ax + 1) (v3get (H5.ds_npts g) ax)
  | None => v3get (H5.ds_npts g) ax
  end.

(** *** Sequences of calls on one instance *)

Inductive call (V : Type) : Type :=
| CallAdd (field : Field.t V) (key : string)
| CallRead (key : string) (min_coords max_coords : option (vec3 Q))
| CallNodes
| CallSetMode (value : string) (reopened : result (H5.File V)).
Arguments CallAdd {V}.
Arguments CallRead {V}.
Arguments CallNodes {V}.
Arguments CallSetMode {V}.

(** The instance after one call, whether the call returned or raised. *)
Definition after_call {V} (self : TTInventory.t V) (c : call V) : TTInventory.t V :=
  match c with
  | CallAdd field key => snd (TTInventory.add self field key)
  | CallRead _ _ _ => self
  | CallNodes => snd (TTInventory.nodes self)
  | CallSetMode value reopened => snd (TTInventory.set_mode self value reopened)
  end.

Definition after_calls {V} (self : TTInventory.t V) (calls : list (call V))
  : TTInventory.t V :=
  foldl after_call self calls.

(** *** Sample grids *)

(** An array of shape (n0, n1, n2) whose element (i, j, k) is 100 i + 10 j + k. *)
Definition sample_values (n0 n1 n2 : Z) : array3 Z :=
  (fun i => (fun j => (fun k => 100 * i + 10 * j + k) <$> seqZ 0 n2) <$> seqZ 0 n1)
    <$> seqZ 0 n0.

(** The grid of the specification's example: origin 0, unit spacing,
    10 x 10 x 10 nodes. *)
Definition sample_field : Field.t Z :=
  Field.mk "cartesian" "scalar" (0, 0, 0)%Q (1, 1, 1)%Q (10, 10, 10)
    (sample_values 10 10 10).

(** A grid with a single layer of nodes on the last axis. *)
Definition layer_field : Field.t Z :=
  Field.mk "cartesian" "scalar" (0, 0, 0)%Q (1 # 2, 1 # 2, 1)%Q (4, 3, 1)
    (sample_values 4 3 1).

(** The [meta] group that [add] records for [sample_field]. *)
Definition sample_meta : H5.meta_group :=
  H5.mk_meta "cartesian" "scalar" (0, 0, 0)%Q (1, 1, 1)%Q (10, 10, 10).

Definition layer_meta : H5.meta_group :=
  H5.mk_meta "cartesian" "scalar" (0, 0, 0)%Q (1 # 2, 1 # 2, 1)%Q (4, 3, 1).

Definition new_inventory : TTInventory.t Z :=
  TTInventory.mk "w" "traveltimes.hdf5" H5.empty None.

Definition sample_inventory : TTInventory.t Z :=
  snd (TTInventory.add new_inventory sample_field "P").

Definition layer_inventory : TTInventory.t Z :=
  snd (TTInventory.add new_inventory layer_field "P").

(** *** Containers and call sequences beyond the single call *)

(** Every stored array has the recorded shape. *)
Definition consistent_shapes {V} (f5 : H5.File V) : Prop :=
  forall key dset,
    H5.dataset f5 key = Some dset ->
    exists g, H5.meta f5 = Some g /\ has_shape (H5.ds_npts g) dset.

(** The calls that keep the file handle: all but the mode setter. *)
Definition keeps_handle {V} (c : call V) : Prop :=
  match c with
  | CallSetMode _ _ => False
  | _ => True
  end.

(** The calls that hand over well-shaped arrays: an [add] of a field whose
    values have the shape [npts], and a mode change that reopens a file
    whose arrays have the recorded shape. *)
Definition well_shaped_call {V} (c : call V) : Prop :=
  match c with
  | CallAdd field _ => has_shape (Field.npts field) (Field.values field)
  | CallSetMode _ (Ok f5) => consistent_shapes f5
  | _ => True
  end.

(** The node of the mesh at grid index (i, j, k), from the recorded
    geometry. *)
Definition grid_node (g : H5.meta_group) (i j k : Z) : vec3 Q :=
  (node_coord g Ax0 i, node_coord g Ax1 j, node_coord g Ax2 k).

(** A field whose type [read] cannot rebuild. *)
Definition tensor_field : Field.t Z :=
  Field.mk "cartesian" "tensor" (0, 0, 0)%Q (1, 1, 1)%Q (2, 2, 2)
    (sample_values 2 2 2).

(** A second field on the grid of [sample_field]. *)
Definition second_field : Field.t Z :=
  Field.mk "cartesian" "scalar" (0, 0, 0)%Q (1, 1, 1)%Q (10, 10, 10)
    ((fun plane : list (list Z) =>
        (fun row : list Z => (fun x => x + 1000) <$> row) <$> plane)
       <$> sample_values 10 10 10).

(** A file with a dataset but no [meta] group, as another writer may
    leave it. *)
Definition orphan_inventory : TTInventory.t Z :=
  TTInventory.mk "r+" "foreign.hdf5"
    (H5.mk_file None (Some {[ "P" := sample_values 2 2 2 ]})) None.

(** Case analysis over the three axes. *)
Ltac each_axis := let ax := fresh "ax" in intros ax; destruct ax.

(** * Properties *)

(** ** Vectors *)

Lemma v3get_v3map {A B} (f : A -> B) (v : vec3 A) ax :
  v3get (v3map f v) ax = f (v3get v ax).
Proof. destruct v as [[a b] c], ax; reflexivity. Qed.

Lemma v3get_v3zip {A B C} (f : A -> B -> C) (u : vec3 A) (v : vec3 B) ax :
  v3get (v3zip f u v) ax = f (v3get u ax) (v3get v ax).
Proof. destruct u as [[a b] c], v as [[a' b'] c'], ax; reflexivity. Qed.

Lemma vec3_ext {A} (u v : vec3 A) :
  (forall ax, v3get u ax = v3get v ax) -> u = v.
Proof.
  destruct u as [[a b] c], v as [[a' b'] c']; intros H.
  pose proof (H Ax0) as H0. pose proof (H Ax1) as H1. pose proof (H Ax2) as H2.
  simpl in *. congruence.
Qed.

Lemma np_all_true (P : vec3 bool) :
  np_all P = true <-> forall ax, v3get P ax = true.
Proof.
  destruct P as [[a b] c]; simpl; split.
  - intros H ax. destruct a, b, c, ax; simpl in *; congruence.
  - intros H. rewrite (H Ax0), (H Ax1), (H Ax2). reflexivity.
Qed.

Lemma np_any_true (P : vec3 bool) :
  np_any P = true <-> exists ax, v3get P ax = true.
Proof.
  destruct P as [[a b] c]; simpl; split.
  - destruct a; [exists Ax0; reflexivity|].
    destruct b; [exists Ax1; reflexivity|].
    destruct c; [exists Ax2; reflexivity|discriminate].
  - intros [ax H]. destruct ax; simpl in H; subst; simpl;
      rewrite ?orb_true_r; reflexivity.
Qed.

Lemma np_any_false (P : vec3 bool) :
  np_any P = false <-> forall ax, v3get P ax = false.
Proof.
  split.
  - intros H ax. destruct (v3get P ax) eqn:E; [|reflexivity].
    assert (np_any P = true) by (apply np_any_true; eauto). congruence.
  - intros H. destruct (np_any P) eqn:E; [|reflexivity].
    apply np_any_true in E as [ax E]. rewrite H in E. discriminate.
Qed.

(** ** The int32 conversion and [np.clip] *)

Lemma astype_int32_exact z : fits_int32 z -> astype_int32 z = z.
Proof.
  unfold fits_int32, INT32_MIN, INT32_MAX, astype_int32. intros H.
  rewrite Z.mod_small; lia.
Qed.

Lemma astype_int32_range z : fits_int32 (astype_int32 z).
Proof.
  unfold fits_int32, INT32_MIN, INT32_MAX, astype_int32.
  pose proof (Z.mod_pos_bound (z + 2147483648) 4294967296). lia.
Qed.

Lemma np_clip_bounds a a_min a_max :
  a_min <= a_max -> a_min <= np_clip a a_min a_max <= a_max.
Proof. unfold np_clip. lia. Qed.

Lemma np_clip_inside a a_min a_max :
  a_min <= a <= a_max -> np_clip a a_min a_max = a.
Proof. unfold np_clip. lia. Qed.

(** ** Coordinates against indices, one axis at a time *)

Section AxisArithmetic.
Local Open Scope Q_scope.
Variables m d : Q.
Hypothesis d_pos : 0 < d.

Lemma quotient_times_interval x : (x - m) / d * d == x - m.
Proof. field. intros E. rewrite E in d_pos. discriminate. Qed.

Lemma index_le_quotient (a : Z) x :
  inject_Z a <= (x - m) / d <-> m + inject_Z a * d <= x.
Proof.
  rewrite <- (Qmult_le_r _ _ d d_pos), quotient_times_interval.
  generalize (inject_Z a * d); intros t. split; intros H; lra.
Qed.

Lemma quotient_le_index (a : Z) x :
  (x - m) / d <= inject_Z a <-> x <= m + inject_Z a * d.
Proof.
  rewrite <- (Qmult_le_r _ _ d d_pos), quotient_times_interval.
  generalize (inject_Z a * d); intros t. split; intros H; lra.
Qed.

(** The node at the floor index is at or below the coordinate. *)
Lemma floor_node_below x : m + inject_Z (Qfloor ((x - m) / d)) * d <= x.
Proof. apply index_le_quotient, Qfloor_le. Qed.

(** The node at the ceiling index is at or above the coordinate. *)
Lemma ceiling_node_above x : x <= m + inject_Z (Qceiling ((x - m) / d)) * d.
Proof. apply quotient_le_index, Qle_ceiling. Qed.

(** The floor index is the last node at or below the coordinate. *)
Lemma floor_is_greatest (a : Z) x :
  m + inject_Z a * d <= x -> (a <= Qfloor ((x - m) / d))%Z.
Proof.
  intros H. apply index_le_quotient in H.
  apply Qfloor_resp_le in H. rewrite Qfloor_Z in H. exact H.
Qed.

(** The ceiling index is the first node at or above the coordinate. *)
Lemma ceiling_is_least (b : Z) x :
  x <= m + inject_Z b * d -> (Qceiling ((x - m) / d) <= b)%Z.
Proof.
  intros H. apply quotient_le_index in H.
  apply Qceiling_resp_le in H. rewrite Qceiling_Z in H. exact H.
Qed.

Lemma floor_nonneg x : m <= x -> (0 <= Qfloor ((x - m) / d))%Z.
Proof. intros H. apply floor_is_greatest. rewrite Qmult_0_l. lra. Qed.

Lemma floor_nonpos x : x <= m -> (Qfloor ((x - m) / d) <= 0)%Z.
Proof.
  intros H.
  assert ((x - m) / d <= inject_Z 0) as H0
    by (apply quotient_le_index; rewrite Qmult_0_l; lra).
  apply Qfloor_resp_le in H0. rewrite Qfloor_Z in H0. exact H0.
Qed.

Lemma floor_le_ceiling x y :
  x <= y -> (Qfloor ((x - m) / d) <= Qceiling ((y - m) / d))%Z.
Proof.
  intros H. rewrite Zle_Qle.
  apply Qle_trans with ((x - m) / d); [apply Qfloor_le|].
  apply Qle_trans with ((y - m) / d); [|apply Qle_ceiling].
  apply (Qmult_le_r _ _ d d_pos). rewrite !quotient_times_interval. lra.
Qed.

End AxisArithmetic.

(** ** Slices *)

Section Slices.
Context {A : Type}.
Implicit Types l : list A.

(** A window that lies inside the list: its bounds are taken as they are. *)
Lemma py_slice_inside (s e : Z) l :
  0 <= s <= e -> e <= Z.of_nat (length l) ->
  py_slice s e l = take (Z.to_nat (e - s)) (drop (Z.to_nat s) l).
Proof.
  intros Hse He. unfold py_slice, slice_bound.
  destruct (Z.ltb_spec s 0); [lia|]. destruct (Z.ltb_spec e 0); [lia|].
  rewrite !Z.min_l by lia. reflexivity.
Qed.

Lemma py_slice_length (s e : Z) l :
  0 <= s <= e -> e <= Z.of_nat (length l) ->
  Z.of_nat (length (py_slice s e l)) = e - s.
Proof.
  intros Hse He. rewrite py_slice_inside by assumption.
  rewrite length_take, length_drop. lia.
Qed.

Lemma py_slice_lookup (s e : Z) l (i : nat) :
  0 <= s <= e -> e <= Z.of_nat (length l) -> Z.of_nat i < e - s ->
  py_slice s e l !! i = l !! (Z.to_nat s + i)%nat.
Proof.
  intros Hse He Hi. rewrite py_slice_inside by assumption.
  rewrite lookup_take_lt by lia. apply lookup_drop.
Qed.

(** [l[0:n]] is the whole list when it has [n] elements. *)
Lemma py_slice_all (n : Z) l : Z.of_nat (length l) = n -> py_slice 0 n l = l.
Proof.
  intros Hn. rewrite py_slice_inside by lia.
  rewrite drop_0. apply take_ge. lia.
Qed.

Lemma py_slice_Forall (P : A -> Prop) (s e : Z) l :
  Forall P l -> Forall P (py_slice s e l).
Proof. intros H. unfold py_slice. apply Forall_take, Forall_drop, H. Qed.

End Slices.

Section Slices3.
Context {V : Type}.
Implicit Types a : array3 V.

Lemma slice3_shape idx_start idx_end n a :
  has_shape n a -> window_inside idx_start idx_end n ->
  has_shape (v3zip Z.sub idx_end idx_start) (slice3 idx_start idx_end a).
Proof.
  destruct idx_start as [[s0 s1] s2], idx_end as [[e0 e1] e2], n as [[n0 n1] n2].
  intros [H0 Hplanes] Hw.
  pose proof (Hw Ax0) as W0. pose proof (Hw Ax1) as W1. pose proof (Hw Ax2) as W2.
  simpl in W0, W1, W2. simpl. split.
  - rewrite length_fmap. apply py_slice_length; lia.
  - apply Forall_fmap. apply py_slice_Forall.
    eapply Forall_impl; [exact Hplanes|]. intros plane [H1 Hrows]. simpl. split.
    + rewrite length_fmap. apply py_slice_length; lia.
    + apply Forall_fmap. apply py_slice_Forall.
      eapply Forall_impl; [exact Hrows|]. intros row H2. simpl in H2 |- *.
      apply py_slice_length; lia.
Qed.

Lemma slice3_get idx_start idx_end n a (i j k : nat) :
  has_shape n a -> window_inside idx_start idx_end n ->
  Z.of_nat i < v3get idx_end Ax0 - v3get idx_start Ax0 ->
  Z.of_nat j < v3get idx_end Ax1 - v3get idx_start Ax1 ->
  Z.of_nat k < v3get idx_end Ax2 - v3get idx_start Ax2 ->
  array3_get (slice3 idx_start idx_end a) i j k =
  array3_get a (Z.to_nat (v3get idx_start Ax0) + i)
               (Z.to_nat (v3get idx_start Ax1) + j)
               (Z.to_nat (v3get idx_start Ax2) + k).
Proof.
  destruct idx_start as [[s0 s1] s2], idx_end as [[e0 e1] e2], n as [[n0 n1] n2].
  intros [H0 Hplanes] Hw.
  pose proof (Hw Ax0) as W0. pose proof (Hw Ax1) as W1. pose proof (Hw Ax2) as W2.
  simpl in W0, W1, W2. unfold v3get. intros Hi Hj Hk.
  unfold array3_get, slice3. rewrite list_lookup_fmap.
  rewrite py_slice_lookup by lia.
  destruct (a !! (Z.to_nat s0 + i)%nat) as [plane|] eqn:Eplane; [|reflexivity].
  simpl. destruct (Forall_lookup_1 _ _ _ _ Hplanes Eplane) as [H1 Hrows].
  rewrite list_lookup_fmap. rewrite py_slice_lookup by lia.
  destruct (plane !! (Z.to_nat s1 + j)%nat) as [row|] eqn:Erow; [|reflexivity].
  simpl. pose proof (Forall_lookup_1 _ _ _ _ Hrows Erow) as H2. simpl in H2.
  apply py_slice_lookup; lia.
Qed.

(** [a[0:n0, 0:n1, 0:n2]] is the whole array when its shape is [n]. *)
Lemma slice3_all n a : has_shape n a -> slice3 (0, 0, 0) n a = a.
Proof.
  destruct n as [[n0 n1] n2]. intros [H0 Hplanes]. simpl.
  rewrite py_slice_all by exact H0. clear H0.
  induction Hplanes as [|plane a' [H1 Hrows] _ IH]; [reflexivity|].
  simpl in *. f_equal; [|exact IH].
  rewrite py_slice_all by exact H1. clear H1.
  induction Hrows as [|row plane' H2 _ IHr]; [reflexivity|].
  simpl. f_equal; [apply py_slice_all, H2|apply IHr].
Qed.

End Slices3.

(** ** The index window of [read] *)

Section IndexWindow.
Import TTInventory.
Variable g : H5.meta_group.

Lemma v3get_grid_quotient x ax :
  v3get (grid_quotient g x) ax = quotient_on g x ax.
Proof. unfold grid_quotient, quotient_on. rewrite !v3get_v3zip. reflexivity. Qed.

Lemma v3get_idx_start_some lo ax :
  v3get (idx_start_of g (Some lo)) ax =
  np_clip (astype_int32 (Qfloor (quotient_on g lo ax))) 0 (v3get (H5.ds_npts g) ax - 1).
Proof.
  unfold idx_start_of.
  rewrite v3get_v3zip, !v3get_v3map, v3get_grid_quotient. reflexivity.
Qed.

Lemma v3get_idx_start_none ax : v3get (idx_start_of g None) ax = 0.
Proof. destruct ax; reflexivity. Qed.

Lemma v3get_idx_end_some idx_start hi ax :
  v3get (idx_end_of g idx_start (Some hi)) ax =
  np_clip (astype_int32 (Qceiling (quotient_on g hi ax) + 1))
    (v3get idx_start ax + 1) (v3get (H5.ds_npts g) ax).
Proof.
  unfold idx_end_of.
  rewrite v3get_v3zip, !v3get_v3map, v3get_grid_quotient.
  rewrite v3get_v3zip, v3get_v3map. reflexivity.
Qed.

Hypothesis npts_pos : positive_npts g.

Lemma idx_start_bounds min_coords ax :
  0 <= v3get (idx_start_of g min_coords) ax <= v3get (H5.ds_npts g) ax - 1.
Proof.
  pose proof (npts_pos ax) as Hn. destruct min_coords as [lo|].
  - rewrite v3get_idx_start_some. apply np_clip_bounds. lia.
  - rewrite v3get_idx_start_none. lia.
Qed.

Lemma idx_end_bounds idx_start max_coords ax :
  0 <= v3get idx_start ax <= v3get (H5.ds_npts g) ax - 1 ->
  v3get idx_start ax + 1 <= v3get (idx_end_of g idx_start max_coords) ax
    <= v3get (H5.ds_npts g) ax.
Proof.
  intros Hs. destruct max_coords as [hi|].
  - rewrite v3get_idx_end_some. apply np_clip_bounds. lia.
  - simpl. lia.
Qed.

(** Whatever the bounds, the window is non-empty and inside the grid. *)
Lemma read_window_inside min_coords max_coords :
  let idx_start := idx_start_of g min_coords in
  let idx_end := idx_end_of g idx_start max_coords in
  window_inside idx_start idx_end (H5.ds_npts g) /\
  forall ax, v3get idx_start ax < v3get idx_end ax.
Proof.
  intros idx_start idx_end.
  assert (forall ax, 0 <= v3get idx_start ax <= v3get (H5.ds_npts g) ax - 1) as Hs
    by (intros ax; apply idx_start_bounds).
  assert (forall ax, v3get idx_start ax + 1 <= v3get idx_end ax
                     <= v3get (H5.ds_npts g) ax) as He
    by (intros ax; apply idx_end_bounds, Hs).
  split; intros ax; specialize (Hs ax); specialize (He ax); lia.
Qed.

End IndexWindow.

(** ** What [read] returns *)

Section ReadOutcome.
Import TTInventory.
Context {V : Type}.
Implicit Types self : TTInventory.t V.

Lemma new_field_recognized (t cs : string) :
  recognized_field_type t ->
  new_field (V := V) t cs = Ok (Field.mk cs t (0, 0, 0)%Q (0, 0, 0)%Q (0, 0, 0) []).
Proof. intros [-> | ->]; reflexivity. Qed.

Lemma new_field_Ok (t cs : string) (field : Field.t V) :
  new_field t cs = Ok field ->
  recognized_field_type t /\
  field = Field.mk cs t (0, 0, 0)%Q (0, 0, 0)%Q (0, 0, 0) [].
Proof.
  unfold new_field, recognized_field_type.
  destruct (String.eqb_spec t "scalar") as [-> | _].
  { intros [= <-]. split; [left|]; reflexivity. }
  destruct (String.eqb_spec t "vector") as [-> | _].
  { intros [= <-]. split; [right|]; reflexivity. }
  discriminate.
Qed.

Lemma new_field_Raise (t cs : string) e :
  new_field (V := V) t cs = Raise e ->
  e = ValueError (msg_unrecognized_field_type t).
Proof.
  unfold new_field.
  destruct (String.eqb t "scalar"); [discriminate|].
  destruct (String.eqb t "vector"); [discriminate|].
  intros [= <-]. reflexivity.
Qed.

Lemma read_Ok self key min_coords max_coords g dset :
  H5.meta (_f5 self) = Some g ->
  H5.dataset (_f5 self) key = Some dset ->
  recognized_field_type (H5.attr_field_type g) ->
  invalid_range min_coords max_coords = false ->
  read self key min_coords max_coords = Ok (window_field g dset min_coords max_coords).
Proof.
  intros Hmeta Hdset Htype Hrange. unfold read.
  rewrite Hmeta, Hrange, (new_field_recognized _ _ Htype), Hdset. reflexivity.
Qed.

Lemma read_Ok_inv self key min_coords max_coords field :
  read self key min_coords max_coords = Ok field ->
  exists g dset,
    H5.meta (_f5 self) = Some g /\
    H5.dataset (_f5 self) key = Some dset /\
    recognized_field_type (H5.attr_field_type g) /\
    invalid_range min_coords max_coords = false /\
    field = window_field g dset min_coords max_coords.
Proof.
  unfold read. destruct (H5.meta (_f5 self)) as [g|]; [|discriminate].
  destruct (invalid_range min_coords max_coords); [discriminate|].
  destruct (new_field _ _) as [field0|e] eqn:Enew; [|discriminate].
  apply new_field_Ok in Enew as [Htype ->].
  destruct (H5.dataset (_f5 self) key) as [dset|]; [|discriminate].
  intros [= <-]. exists g, dset. repeat split; assumption.
Qed.

End ReadOutcome.

Lemma np_clip_clamp a lo hi : lo <= hi -> np_clip a lo hi = clamp a lo hi.
Proof. unfold np_clip, clamp. lia. Qed.


Lemma sample_meta_recorded :
  H5.meta (TTInventory._f5 sample_inventory) = Some sample_meta.
Proof. reflexivity. Qed.

Lemma sample_meta_positive_intervals : positive_intervals sample_meta.
Proof. each_axis; reflexivity. Qed.

Lemma sample_meta_positive_npts : positive_npts sample_meta.
Proof. each_axis; simpl; lia. Qed.

Lemma sample_meta_npts_fit_int32 : npts_fit_int32 sample_meta.
Proof. each_axis; unfold INT32_MAX; simpl; lia. Qed.



(** ** Requests inside the grid *)

Section RequestInsideGrid.
Import TTInventory.
Variable g : H5.meta_group.
Hypothesis intervals_pos : positive_intervals g.
Hypothesis npts_int32 : npts_fit_int32 g.

Lemma node_coord_mono ax (i j : Z) :
  i <= j -> (node_coord g ax i <= node_coord g ax j)%Q.
Proof.
  intros Hij. unfold node_coord. apply Qplus_le_r.
  apply Qmult_le_compat_r; [rewrite <- Zle_Qle; exact Hij|].
  apply Qlt_le_weak, intervals_pos.
Qed.

Lemma last_coord_node ax :
  (last_coord g ax == node_coord g ax (v3get (H5.ds_npts g) ax - 1))%Q.
Proof. unfold last_coord, node_coord. ring. Qed.

Lemma floor_in_grid x ax :
  (v3get (H5.ds_min_coords g) ax <= v3get x ax)%Q ->
  (v3get x ax <= last_coord g ax)%Q ->
  0 <= Qfloor (quotient_on g x ax) <= v3get (H5.ds_npts g) ax - 1.
Proof.
  intros Hlow Hhigh. split.
  - apply (floor_nonneg _ _ (intervals_pos ax)), Hlow.
  - rewrite <- (Qfloor_Z (v3get (H5.ds_npts g) ax - 1)).
    apply Qfloor_resp_le, (quotient_le_index _ _ (intervals_pos ax)).
    rewrite last_coord_node in Hhigh. exact Hhigh.
Qed.

Lemma ceiling_in_grid x ax :
  (v3get (H5.ds_min_coords g) ax <= v3get x ax)%Q ->
  (v3get x ax <= last_coord g ax)%Q ->
  0 <= Qceiling (quotient_on g x ax) <= v3get (H5.ds_npts g) ax - 1.
Proof.
  intros Hlow Hhigh. split.
  - apply Z.le_trans with (Qfloor (quotient_on g x ax)).
    + apply (floor_nonneg _ _ (intervals_pos ax)), Hlow.
    + apply (floor_le_ceiling _ _ (intervals_pos ax)), Qle_refl.
  - apply (ceiling_is_least _ _ (intervals_pos ax)).
    rewrite last_coord_node in Hhigh. exact Hhigh.
Qed.

Lemma idx_start_in_grid lo ax :
  (v3get (H5.ds_min_coords g) ax <= v3get lo ax)%Q ->
  (v3get lo ax <= last_coord g ax)%Q ->
  v3get (idx_start_of g (Some lo)) ax = Qfloor (quotient_on g lo ax).
Proof.
  intros Hlow Hhigh. pose proof (floor_in_grid lo ax Hlow Hhigh) as Hfloor.
  pose proof (npts_int32 ax) as Hmax. unfold INT32_MAX in Hmax.
  rewrite v3get_idx_start_some, astype_int32_exact
    by (unfold fits_int32, INT32_MIN, INT32_MAX; lia).
  apply np_clip_inside. lia.
Qed.

Lemma idx_end_in_grid min_coords lo hi ax :
  v3get (idx_start_of g min_coords) ax <= Qfloor (quotient_on g lo ax) ->
  (v3get lo ax <= v3get hi ax)%Q ->
  (v3get (H5.ds_min_coords g) ax <= v3get hi ax)%Q ->
  (v3get hi ax <= last_coord g ax)%Q ->
  v3get (idx_end_of g (idx_start_of g min_coords) (Some hi)) ax =
  Qceiling (quotient_on g hi ax) + 1.
Proof.
  intros Hstart Hlohi Hlow Hhigh.
  pose proof (ceiling_in_grid hi ax Hlow Hhigh) as Hceil.
  pose proof (floor_le_ceiling (v3get (H5.ds_min_coords g) ax) _
                (intervals_pos ax) _ _ Hlohi) as Hfc.
  fold (quotient_on g lo ax) in Hfc. fold (quotient_on g hi ax) in Hfc.
  pose proof (npts_int32 ax) as Hmax. unfold INT32_MAX in Hmax.
  rewrite v3get_idx_end_some, astype_int32_exact
    by (unfold fits_int32, INT32_MIN, INT32_MAX; lia).
  apply np_clip_inside. lia.
Qed.

End RequestInsideGrid.

(** ** The corners of the returned field *)

Section ReturnedCorners.
Import TTInventory.
Context {V : Type}.
Variables (g : H5.meta_group) (dset : array3 V).
Variables min_coords max_coords : option (vec3 Q).

Lemma window_field_min ax :
  v3get (Field.min_coords (window_field g dset min_coords max_coords)) ax =
  node_coord g ax (v3get (idx_start_of g min_coords) ax).
Proof.
  unfold window_field, node_coord. simpl Field.min_coords.
  rewrite !v3get_v3zip, v3get_v3map. reflexivity.
Qed.

Lemma window_field_npts ax :
  v3get (Field.npts (window_field g dset min_coords max_coords)) ax =
  v3get (idx_end_of g (idx_start_of g min_coords) max_coords) ax -
  v3get (idx_start_of g min_coords) ax.
Proof. unfold window_field. simpl Field.npts. apply v3get_v3zip. Qed.

Lemma window_field_max ax :
  (v3get (Field.max_coords (window_field g dset min_coords max_coords)) ax ==
   node_coord g ax
     (v3get (idx_end_of g (idx_start_of g min_coords) max_coords) ax - 1))%Q.
Proof.
  unfold Field.max_coords. rewrite !v3get_v3zip, v3get_v3map.
  rewrite window_field_min, window_field_npts.
  unfold window_field, node_coord. simpl Field.node_intervals.
  set (s := v3get (idx_start_of g min_coords) ax).
  set (e := v3get (idx_end_of g (idx_start_of g min_coords) max_coords) ax).
  replace (e - s - 1) with ((e - 1) + - s) by lia.
  rewrite inject_Z_plus, inject_Z_opp. ring.
Qed.

End ReturnedCorners.

Lemma valid_range_accepted (lo hi : vec3 Q) :
  (forall ax, (v3get lo ax < v3get hi ax)%Q) ->
  TTInventory.invalid_range (Some lo) (Some hi) = false.
Proof.
  intros Hlt. unfold TTInventory.invalid_range. apply np_any_false. intros ax.
  rewrite v3get_v3zip. destruct (Qle_bool (v3get hi ax) (v3get lo ax)) eqn:E;
    [|reflexivity].
  apply Qle_bool_iff in E. exfalso. exact (Qlt_not_le _ _ (Hlt ax) E).
Qed.


Lemma sample_dataset_stored :
  H5.dataset (TTInventory._f5 sample_inventory) "P" = Some (sample_values 10 10 10).
Proof. reflexivity. Qed.



(** C3 (returned-field geometry reconstruction).  Every successful read
    draws on a recorded geometry and a stored array; on every axis the
    returned [min_coords] is [recorded_min + idx_start * node_intervals],
    the [node_intervals] are the recorded ones, [npts] is
    [idx_end - idx_start], and [values] is the stored array sliced by
    [idx_start, idx_end): when the stored array has the recorded shape,
    the values have the shape [npts] and element (i, j, k) of the values is
    element (idx_start + (i, j, k)) of the stored array. *)
Theorem read_reconstructs_geometry {V} (self : TTInventory.t V) (key : string)
    (min_coords max_coords : option (vec3 Q)) (field : Field.t V) :
  TTInventory.read self key min_coords max_coords = Ok field ->
  exists g dset,
    H5.meta (TTInventory._f5 self) = Some g /\
    H5.dataset (TTInventory._f5 self) key = Some dset /\
    let idx_start := TTInventory.idx_start_of g min_coords in
    let idx_end := TTInventory.idx_end_of g idx_start max_coords in
    (forall ax, v3get (Field.min_coords field) ax =
                (v3get (H5.ds_min_coords g) ax +
                 inject_Z (v3get idx_start ax) * v3get (H5.ds_node_intervals g) ax)%Q) /\
    Field.node_intervals field = H5.ds_node_intervals g /\
    (forall ax, v3get (Field.npts field) ax = v3get idx_end ax - v3get idx_start ax) /\
    Field.values field = slice3 idx_start idx_end dset /\
    (positive_npts g -> has_shape (H5.ds_npts g) dset ->
     has_shape (Field.npts field) (Field.values field) /\
     forall i j k : nat,
       Z.of_nat i < v3get (Field.npts field) Ax0 ->
       Z.of_nat j < v3get (Field.npts field) Ax1 ->
       Z.of_nat k < v3get (Field.npts field) Ax2 ->
       array3_get (Field.values field) i j k =
       array3_get dset (Z.to_nat (v3get idx_start Ax0) + i)
                       (Z.to_nat (v3get idx_start Ax1) + j)
                       (Z.to_nat (v3get idx_start Ax2) + k)).
Proof.
  intros Hread.
  apply read_Ok_inv in Hread as (g & dset & Hmeta & Hdset & _ & _ & ->).
  exists g, dset. split; [exact Hmeta|]. split; [exact Hdset|].
  intros idx_start idx_end.
  split; [intros ax; apply window_field_min|].
  split; [reflexivity|].
  split; [intros ax; apply window_field_npts|].
  split; [reflexivity|].
  intros Hn Hshape.
  destruct (read_window_inside g Hn min_coords max_coords) as [Hinside _].
  fold idx_start in Hinside. fold idx_end in Hinside.
  split.
  - apply (slice3_shape idx_start idx_end (H5.ds_npts g)); assumption.
  - intros i j k Hi Hj Hk.
    rewrite !window_field_npts in Hi, Hj, Hk.
    apply (slice3_get idx_start idx_end (H5.ds_npts g)); assumption.
Qed.

Lemma sample_values_shape (n0 n1 n2 : Z) :
  0 <= n0 -> 0 <= n1 -> 0 <= n2 -> has_shape (n0, n1, n2) (sample_values n0 n1 n2).
Proof.
  intros H0 H1 H2. unfold sample_values. split.
  - rewrite length_fmap, length_seqZ. lia.
  - apply Forall_fmap, Forall_forall. intros i _. simpl. split.
    + rewrite length_fmap, length_seqZ. lia.
    + apply Forall_fmap, Forall_forall. intros j _. simpl.
      rewrite length_fmap, length_seqZ. lia.
Qed.

Lemma read_reconstructs_geometry_witness :
  let lo := (1 # 2, 1, 2)%Q in
  let hi := (3 # 2, 4, 17 # 2)%Q in
  let field := window_field sample_meta (sample_values 10 10 10) (Some lo) (Some hi) in
  TTInventory.read sample_inventory "P" (Some lo) (Some hi) = Ok field /\
  Field.min_coords field = (0 + 0 * 1, 0 + 1 * 1, 0 + 2 * 1)%Q /\
  Field.npts field = (3, 4, 8) /\
  has_shape (3, 4, 8) (Field.values field) /\
  array3_get (Field.values field) 2 3 7 = Some 249.
Proof.
  intros lo hi field.
  assert (TTInventory.read sample_inventory "P" (Some lo) (Some hi) = Ok field)
    as Hread by reflexivity.
  destruct (read_reconstructs_geometry sample_inventory "P" (Some lo) (Some hi)
              field Hread)
    as (g & dset & Hmeta & Hdset & _ & _ & _ & _ & Hvalues).
  injection Hmeta as <-. injection Hdset as <-.
  destruct (Hvalues sample_meta_positive_npts
              (sample_values_shape 10 10 10 ltac:(lia) ltac:(lia) ltac:(lia)))
    as [Hshape Hget].
  split; [exact Hread|]. split; [reflexivity|]. split; [reflexivity|].
  split; [exact Hshape|].
  rewrite (Hget 2 3 7)%nat by (vm_compute; reflexivity).
  reflexivity.
Defined.

(** ** The geometry check and the write of [add] *)

Lemma np_all_Qeq_bool (u v : vec3 Q) :
  np_all (v3zip Qeq_bool u v) = true <-> v3Qeq u v.
Proof.
  rewrite np_all_true. unfold v3Qeq.
  split; intros H ax; specialize (H ax); rewrite v3get_v3zip in *;
    apply Qeq_bool_iff; exact H.
Qed.

Lemma np_all_Zeqb (u v : vec3 Z) : np_all (v3zip Z.eqb u v) = true <-> u = v.
Proof.
  rewrite np_all_true. split.
  - intros H. apply vec3_ext. intros ax. specialize (H ax).
    rewrite v3get_v3zip in H. apply Z.eqb_eq, H.
  - intros -> ax. rewrite v3get_v3zip. apply Z.eqb_refl.
Qed.

Section AddOutcome.
Import TTInventory.
Context {V : Type}.
Implicit Types (self : TTInventory.t V) (field : Field.t V).

Lemma assert_same_geometry_passes field g (f5 : H5.File V) :
  geometry_matches field g -> assert_same_geometry field g f5 = (Ok tt, f5).
Proof.
  intros (Hcs & Hft & Hmin & Hd & Hn).
  unfold assert_same_geometry, bind, py_assert.
  rewrite Hcs, Hft, !String.eqb_refl. simpl.
  apply np_all_Qeq_bool in Hmin, Hd. apply np_all_Zeqb in Hn.
  rewrite Hmin, Hd, Hn. reflexivity.
Qed.

Lemma assert_same_geometry_fails field g (f5 : H5.File V) :
  ~ geometry_matches field g ->
  assert_same_geometry field g f5 = (Raise AssertionError, f5).
Proof.
  intros Hdiff. unfold assert_same_geometry, bind, py_assert.
  destruct (String.eqb_spec (Field.coord_sys field) (H5.attr_coord_sys g))
    as [Hcs|]; [|reflexivity].
  destruct (String.eqb_spec (Field.field_type field) (H5.attr_field_type g))
    as [Hft|]; [|reflexivity].
  simpl.
  destruct (np_all (v3zip Qeq_bool (Field.min_coords field) (H5.ds_min_coords g)))
    eqn:Hmin; [|reflexivity].
  destruct (np_all (v3zip Qeq_bool (Field.node_intervals field)
                      (H5.ds_node_intervals g))) eqn:Hd; [|reflexivity].
  destruct (np_all (v3zip Z.eqb (Field.npts field) (H5.ds_npts g)))
    eqn:Hn; [|reflexivity].
  exfalso. apply Hdiff.
  apply np_all_Qeq_bool in Hmin, Hd. apply np_all_Zeqb in Hn.
  repeat split; assumption.
Qed.

(** The last two statements of [add] on a file whose [meta] group exists. *)
Lemma store_existing_key meta_now (f5 : H5.File V) key values dset :
  H5.dataset f5 key = Some dset ->
  bind require_group_data
    (fun _ => bind (create_dataset key values) (fun _ => ret true))
    (H5.mk_file meta_now (H5.data f5))
  = (Raise KeyConflictError, H5.mk_file meta_now (H5.data f5)).
Proof.
  unfold H5.dataset, bind, require_group_data, create_dataset. simpl.
  destruct (H5.data f5) as [d|]; [|discriminate]. simpl.
  intros ->. reflexivity.
Qed.

Lemma store_new_key meta_now (f5 : H5.File V) key values :
  H5.dataset f5 key = None ->
  bind require_group_data
    (fun _ => bind (create_dataset key values) (fun _ => ret true))
    (H5.mk_file meta_now (H5.data f5))
  = (Ok true, H5.mk_file meta_now (data_with f5 key values)).
Proof.
  unfold H5.dataset, bind, require_group_data, create_dataset, data_with. simpl.
  destruct (H5.data f5) as [d|]; simpl.
  - intros ->. reflexivity.
  - intros _. rewrite lookup_empty. reflexivity.
Qed.

Lemma file_eta (f5 : H5.File V) : H5.mk_file (H5.meta f5) (H5.data f5) = f5.
Proof. destruct f5; reflexivity. Qed.

Lemma with_f5_same self : with_f5 self (_f5 self) = self.
Proof. destruct self; reflexivity. Qed.

Lemma add_f5_mismatch field key (f5 : H5.File V) g :
  H5.meta f5 = Some g -> ~ geometry_matches field g ->
  add_f5 field key f5 = (Raise GeometryMismatchError, f5).
Proof.
  intros Hmeta Hdiff. unfold add_f5, bind at 1 2, contains_meta.
  rewrite Hmeta. simpl. unfold bind at 1, open_meta. rewrite Hmeta.
  rewrite (assert_same_geometry_fails _ _ _ Hdiff). reflexivity.
Qed.

Lemma add_f5_match field key (f5 : H5.File V) g :
  H5.meta f5 = Some g -> geometry_matches field g ->
  add_f5 field key f5 =
  match H5.dataset f5 key with
  | Some _ => (Raise KeyConflictError, f5)
  | None => (Ok true, H5.mk_file (Some g) (data_with f5 key (Field.values field)))
  end.
Proof.
  intros Hmeta Hsame. unfold add_f5, bind at 1 2, contains_meta.
  rewrite Hmeta. simpl. unfold bind at 1, open_meta. rewrite Hmeta.
  rewrite (assert_same_geometry_passes _ _ _ Hsame).
  rewrite <- (file_eta f5) at 1. rewrite Hmeta.
  destruct (H5.dataset f5 key) as [dset|] eqn:Hkey.
  - rewrite (store_existing_key _ _ _ _ _ Hkey), <- Hmeta. f_equal. apply file_eta.
  - apply store_new_key, Hkey.
Qed.

Lemma add_f5_first field key (f5 : H5.File V) :
  H5.meta f5 = None ->
  add_f5 field key f5 =
  match H5.dataset f5 key with
  | Some _ => (Raise KeyConflictError, H5.mk_file (Some (meta_of_field field)) (H5.data f5))
  | None => (Ok true, H5.mk_file (Some (meta_of_field field))
                        (data_with f5 key (Field.values field)))
  end.
Proof.
  intros Hmeta. unfold add_f5, bind at 1 2, contains_meta.
  rewrite Hmeta. simpl. unfold create_meta. fold (meta_of_field field).
  destruct (H5.dataset f5 key) as [dset|] eqn:Hkey.
  - apply (store_existing_key _ _ _ _ _ Hkey).
  - apply store_new_key, Hkey.
Qed.

End AddOutcome.

Lemma geometry_matches_or_not {V} (field : Field.t V) (g : H5.meta_group) :
  geometry_matches field g \/ ~ geometry_matches field g.
Proof.
  unfold geometry_matches.
  destruct (String.eqb_spec (Field.coord_sys field) (H5.attr_coord_sys g));
    [|right; tauto].
  destruct (String.eqb_spec (Field.field_type field) (H5.attr_field_type g));
    [|right; tauto].
  destruct (np_all (v3zip Qeq_bool (Field.min_coords field) (H5.ds_min_coords g)))
    eqn:Hmin.
  2: { right. intros (_ & _ & H & _). apply np_all_Qeq_bool in H. congruence. }
  destruct (np_all (v3zip Qeq_bool (Field.node_intervals field)
                      (H5.ds_node_intervals g))) eqn:Hd.
  2: { right. intros (_ & _ & _ & H & _). apply np_all_Qeq_bool in H. congruence. }
  destruct (np_all (v3zip Z.eqb (Field.npts field) (H5.ds_npts g))) eqn:Hn.
  2: { right. intros (_ & _ & _ & _ & H). apply np_all_Zeqb in H. congruence. }
  left. apply np_all_Qeq_bool in Hmin, Hd. apply np_all_Zeqb in Hn. tauto.
Qed.

(** C7 (geometry-mismatch atomicity).  On a container with a recorded
    geometry, [add] of a field that differs from the record in its
    [coord_sys], its [field_type], or one component of its [min_coords],
    [node_intervals] or [npts] raises the assertion failure, and the object
    after the call is the object before it: neither [meta] nor any dataset
    has been written. *)
Theorem add_rejects_mismatched_geometry {V} (self : TTInventory.t V)
    (field : Field.t V) (key : string) (g : H5.meta_group) :
  H5.meta (TTInventory._f5 self) = Some g ->
  (Field.coord_sys field <> H5.attr_coord_sys g \/
   Field.field_type field <> H5.attr_field_type g \/
   (exists ax, ~ (v3get (Field.min_coords field) ax == v3get (H5.ds_min_coords g) ax)%Q) \/
   (exists ax, ~ (v3get (Field.node_intervals field) ax ==
                  v3get (H5.ds_node_intervals g) ax)%Q) \/
   (exists ax, v3get (Field.npts field) ax <> v3get (H5.ds_npts g) ax)) ->
  TTInventory.add self field key = (Raise GeometryMismatchError, self).
Proof.
  intros Hmeta Hdiff.
  assert (~ geometry_matches field g) as Hno.
  { intros (Hcs & Hft & Hmin & Hd & Hn).
    destruct Hdiff as [H | [H | [[ax H] | [[ax H] | [ax H]]]]].
    - exact (H Hcs).
    - exact (H Hft).
    - exact (H (Hmin ax)).
    - exact (H (Hd ax)).
    - apply H. rewrite Hn. reflexivity. }
  unfold TTInventory.add. rewrite (add_f5_mismatch _ _ _ _ Hmeta Hno).
  f_equal. apply with_f5_same.
Qed.

Lemma add_rejects_mismatched_geometry_witness :
  let shorter :=
    Field.mk "cartesian" "scalar" (0, 0, 0)%Q (1, 1, 1)%Q (10, 10, 9)
      (sample_values 10 10 9) in
  TTInventory.add sample_inventory shorter "S" =
  (Raise GeometryMismatchError, sample_inventory).
Proof.
  intros shorter.
  apply (add_rejects_mismatched_geometry sample_inventory shorter "S" sample_meta).
  - reflexivity.
  - right. right. right. right. exists Ax2. simpl. lia.
Defined.

(** C8 (duplicate-key rejection).  When a dataset exists under [key],
    [add] with that key raises: the store's name-exists error, unless the
    geometry assertions fail first, which happens only for a field that does
    not match the recorded geometry.  No dataset is touched, and on a
    container with a recorded geometry the object is unchanged, so the
    first dataset is read exactly as before. *)
Theorem add_rejects_existing_key {V} (self : TTInventory.t V)
    (field : Field.t V) (key : string) (dset : array3 V) :
  H5.dataset (TTInventory._f5 self) key = Some dset ->
  exists e,
    fst (TTInventory.add self field key) = Raise e /\
    (e = KeyConflictError \/ e = GeometryMismatchError) /\
    ((forall g, H5.meta (TTInventory._f5 self) = Some g -> geometry_matches field g) ->
     e = KeyConflictError) /\
    H5.data (TTInventory._f5 (snd (TTInventory.add self field key))) =
      H5.data (TTInventory._f5 self) /\
    (forall g, H5.meta (TTInventory._f5 self) = Some g ->
       snd (TTInventory.add self field key) = self /\
       forall min_coords max_coords,
         TTInventory.read (snd (TTInventory.add self field key)) key
           min_coords max_coords =
         TTInventory.read self key min_coords max_coords).
Proof.
  intros Hkey. unfold TTInventory.add.
  destruct (H5.meta (TTInventory._f5 self)) as [g|] eqn:Hmeta.
  - destruct (geometry_matches_or_not field g) as [Hsame | Hno].
    + rewrite (add_f5_match _ _ _ _ Hmeta Hsame), Hkey. simpl.
      exists KeyConflictError. rewrite with_f5_same.
      repeat split; auto.
    + rewrite (add_f5_mismatch _ _ _ _ Hmeta Hno). simpl.
      exists GeometryMismatchError. rewrite with_f5_same.
      repeat split; auto.
      intros Hall. exfalso. apply Hno, Hall. reflexivity.
  - rewrite (add_f5_first _ _ _ Hmeta), Hkey. simpl.
    exists KeyConflictError. repeat split; auto; discriminate.
Qed.

Lemma add_rejects_existing_key_witness :
  TTInventory.add sample_inventory sample_field "P" =
    (Raise KeyConflictError, sample_inventory) /\
  TTInventory.read (snd (TTInventory.add sample_inventory sample_field "P")) "P"
    None None = Ok sample_field.
Proof.
  destruct (add_rejects_existing_key sample_inventory sample_field "P"
              (sample_values 10 10 10) sample_dataset_stored)
    as (e & Hfails & _ & Hconflict & _ & Hsame).
  destruct (Hsame sample_meta sample_meta_recorded) as [Hself Hread].
  assert (e = KeyConflictError) as ->.
  { apply Hconflict. intros g [= <-]. repeat split; each_axis; reflexivity. }
  split.
  - rewrite (surjective_pairing (TTInventory.add _ _ _)), Hfails, Hself. reflexivity.
  - rewrite Hread. reflexivity.
Defined.

(** ** Reading back what was added *)

Section RoundTrip.
Context {V : Type}.

Lemma dataset_after_store (meta_now : option H5.meta_group) (f5 : H5.File V)
    (key : string) (values : array3 V) :
  H5.dataset (H5.mk_file meta_now (data_with f5 key values)) key = Some values.
Proof. unfold H5.dataset, data_with. simpl. apply lookup_insert_eq. Qed.

(** An unbounded read hands back the recorded geometry and the whole
    array. *)
Lemma window_field_unbounded (g : H5.meta_group) (dset : array3 V) :
  has_shape (H5.ds_npts g) dset ->
  Field.same (window_field g dset None None)
    (Field.mk (H5.attr_coord_sys g) (H5.attr_field_type g) (H5.ds_min_coords g)
       (H5.ds_node_intervals g) (H5.ds_npts g) dset).
Proof.
  intros Hshape. unfold Field.same.
  split; [reflexivity|]. split; [reflexivity|]. split; [|split; [|split]].
  - intros ax. rewrite window_field_min, v3get_idx_start_none.
    unfold node_coord. simpl Field.min_coords. ring.
  - intros ax. reflexivity.
  - apply vec3_ext. intros ax. rewrite window_field_npts, v3get_idx_start_none.
    simpl. lia.
  - simpl. apply slice3_all, Hshape.
Qed.

End RoundTrip.

(** C4 (geometry round-trip).  When [add] of a scalar or vector field whose
    values have the shape [npts] succeeds, [read] of the same key without
    bounds succeeds and returns a field with the same [coord_sys] and
    [field_type], numerically equal [min_coords] and [node_intervals], the
    same [npts] and the same [values]. *)
Theorem add_then_read_round_trip {V} (self self' : TTInventory.t V)
    (field : Field.t V) (key : string) :
  TTInventory.add self field key = (Ok true, self') ->
  recognized_field_type (Field.field_type field) ->
  has_shape (Field.npts field) (Field.values field) ->
  exists field',
    TTInventory.read self' key None None = Ok field' /\
    Field.same field' field.
Proof.
  unfold TTInventory.add. intros Hadd Htype Hshape.
  destruct (H5.meta (TTInventory._f5 self)) as [g|] eqn:Hmeta.
  - destruct (geometry_matches_or_not field g) as [Hsame | Hno].
    2: { rewrite (add_f5_mismatch _ _ _ _ Hmeta Hno) in Hadd. discriminate. }
    rewrite (add_f5_match _ _ _ _ Hmeta Hsame) in Hadd.
    destruct (H5.dataset (TTInventory._f5 self) key); [discriminate|].
    injection Hadd as <-.
    destruct Hsame as (Hcs & Hft & Hmin & Hd & Hn).
    exists (window_field g (Field.values field) None None). split.
    + apply read_Ok; try reflexivity.
      * apply dataset_after_store.
      * rewrite <- Hft. exact Htype.
    + rewrite Hn in Hshape.
      destruct (window_field_unbounded g (Field.values field) Hshape)
        as (Ecs & Eft & Emin & Ed & En & Ev).
      unfold Field.same.
      split; [rewrite Ecs; symmetry; exact Hcs|].
      split; [rewrite Eft; symmetry; exact Hft|].
      split; [intros ax; eapply Qeq_trans; [apply Emin|apply Qeq_sym, Hmin]|].
      split; [intros ax; eapply Qeq_trans; [apply Ed|apply Qeq_sym, Hd]|].
      split; [rewrite En; symmetry; exact Hn|exact Ev].
  - rewrite (add_f5_first _ _ _ Hmeta) in Hadd.
    destruct (H5.dataset (TTInventory._f5 self) key); [discriminate|].
    injection Hadd as <-.
    exists (window_field (meta_of_field field) (Field.values field) None None). split.
    + apply read_Ok; try reflexivity.
      * apply dataset_after_store.
      * exact Htype.
    + destruct field as [cs ft lo d n values].
      apply (window_field_unbounded
               (H5.mk_meta cs ft lo d n) values Hshape).
Qed.

Lemma add_then_read_round_trip_witness :
  TTInventory.add new_inventory sample_field "P" = (Ok true, sample_inventory) /\
  exists field',
    TTInventory.read sample_inventory "P" None None = Ok field' /\
    Field.same field' sample_field.
Proof.
  assert (TTInventory.add new_inventory sample_field "P" = (Ok true, sample_inventory))
    as Hadd by reflexivity.
  split; [exact Hadd|].
  apply (add_then_read_round_trip new_inventory sample_inventory sample_field "P" Hadd).
  - left. reflexivity.
  - apply sample_values_shape; lia.
Defined.

(** ** Bounds equal to the full extent *)

Section FullExtent.
Import TTInventory.
Variable g : H5.meta_group.
Hypothesis intervals_pos : positive_intervals g.
Hypothesis npts_two : forall ax, 2 <= v3get (H5.ds_npts g) ax.
Hypothesis npts_int32 : npts_fit_int32 g.

Lemma v3get_recorded_max_coords ax :
  v3get (recorded_max_coords g) ax = last_coord g ax.
Proof.
  unfold recorded_max_coords, last_coord.
  rewrite !v3get_v3zip, v3get_v3map. reflexivity.
Qed.

Lemma origin_below_last ax :
  (v3get (H5.ds_min_coords g) ax < last_coord g ax)%Q.
Proof.
  unfold last_coord.
  assert (0 < v3get (H5.ds_node_intervals g) ax *
              inject_Z (v3get (H5.ds_npts g) ax - 1))%Q as Hpos.
  { apply Qmult_lt_0_compat; [apply intervals_pos|].
    change 0%Q with (inject_Z 0). rewrite <- Zlt_Qlt.
    specialize (npts_two ax). lia. }
  lra.
Qed.

Lemma full_extent_is_valid :
  invalid_range (Some (H5.ds_min_coords g)) (Some (recorded_max_coords g)) = false.
Proof.
  apply valid_range_accepted. intros ax.
  rewrite v3get_recorded_max_coords. apply origin_below_last.
Qed.

Lemma full_extent_start :
  idx_start_of g (Some (H5.ds_min_coords g)) = idx_start_of g None.
Proof.
  apply vec3_ext. intros ax. rewrite v3get_idx_start_none.
  rewrite idx_start_in_grid; auto using Qle_refl, Qlt_le_weak, origin_below_last.
  apply Z.le_antisymm.
  - apply (floor_nonpos _ _ (intervals_pos ax)), Qle_refl.
  - apply (floor_nonneg _ _ (intervals_pos ax)), Qle_refl.
Qed.

Lemma full_extent_end :
  idx_end_of g (idx_start_of g None) (Some (recorded_max_coords g)) =
  idx_end_of g (idx_start_of g None) None.
Proof.
  apply vec3_ext. intros ax.
  pose proof (origin_below_last ax) as Hlt.
  rewrite (idx_end_in_grid g intervals_pos npts_int32 None (H5.ds_min_coords g)).
  - simpl idx_end_of.
    assert (Qceiling (quotient_on g (recorded_max_coords g) ax) =
            v3get (H5.ds_npts g) ax - 1) as ->; [|lia].
    apply Z.le_antisymm.
    + apply (ceiling_is_least _ _ (intervals_pos ax)).
      rewrite v3get_recorded_max_coords, last_coord_node. apply Qle_refl.
    + rewrite <- (Qceiling_Z (v3get (H5.ds_npts g) ax - 1)).
      apply Qceiling_resp_le, (index_le_quotient _ _ (intervals_pos ax)).
      rewrite v3get_recorded_max_coords, last_coord_node. apply Qle_refl.
  - rewrite v3get_idx_start_none.
    apply (floor_nonneg _ _ (intervals_pos ax)), Qle_refl.
  - rewrite v3get_recorded_max_coords. apply Qlt_le_weak, Hlt.
  - rewrite v3get_recorded_max_coords. apply Qlt_le_weak, Hlt.
  - rewrite v3get_recorded_max_coords. apply Qle_refl.
Qed.

End FullExtent.




(** ** The exceptions of [read] *)

Lemma invalid_range_true (min_coords max_coords : option (vec3 Q)) :
  TTInventory.invalid_range min_coords max_coords = true <->
  exists lo hi,
    min_coords = Some lo /\ max_coords = Some hi /\
    exists ax, (v3get lo ax >= v3get hi ax)%Q.
Proof.
  unfold TTInventory.invalid_range. split.
  - destruct min_coords as [lo|], max_coords as [hi|]; try discriminate.
    intros H. apply np_any_true in H as [ax H]. rewrite v3get_v3zip in H.
    apply Qle_bool_iff in H. exists lo, hi. eauto.
  - intros (lo & hi & -> & -> & ax & H). apply np_any_true. exists ax.
    rewrite v3get_v3zip. apply Qle_bool_iff, H.
Qed.

Lemma unrecognized_is_not_invalid_range (t : string) :
  ValueError (msg_unrecognized_field_type t) <> InvalidRangeError.
Proof. unfold InvalidRangeError. simpl. intros H. discriminate H. Qed.

(** C6 (invalid-range rejection).  On a container whose geometry has been
    recorded, [read] raises the range error exactly when both bounds are
    given and [min_coords >= max_coords] on some axis; with only one bound,
    or none, it never raises it. *)
Theorem read_rejects_invalid_range {V} (self : TTInventory.t V) (key : string)
    (g : H5.meta_group) (min_coords max_coords : option (vec3 Q)) :
  H5.meta (TTInventory._f5 self) = Some g ->
  (TTInventory.read self key min_coords max_coords = Raise InvalidRangeError <->
   exists lo hi,
     min_coords = Some lo /\ max_coords = Some hi /\
     exists ax, (v3get lo ax >= v3get hi ax)%Q) /\
  (min_coords = None \/ max_coords = None ->
   TTInventory.read self key min_coords max_coords <> Raise InvalidRangeError).
Proof.
  intros Hmeta.
  assert (TTInventory.read self key min_coords max_coords = Raise InvalidRangeError <->
          TTInventory.invalid_range min_coords max_coords = true) as Hiff.
  { unfold TTInventory.read. rewrite Hmeta. cbv zeta.
    destruct (TTInventory.invalid_range min_coords max_coords); [tauto|].
    split; [|discriminate].
    destruct (TTInventory.new_field _ _) as [field|e] eqn:Enew.
    - destruct (H5.dataset _ _); discriminate.
    - apply new_field_Raise in Enew as ->. intros H. exfalso.
      apply (unrecognized_is_not_invalid_range (H5.attr_field_type g)).
      congruence. }
  split.
  - rewrite Hiff. apply invalid_range_true.
  - intros Hone Hraise. apply Hiff in Hraise.
    destruct Hone as [-> | ->]; [|destruct min_coords]; discriminate Hraise.
Qed.

Lemma read_rejects_invalid_range_witness :
  TTInventory.read sample_inventory "P" (Some (1, 5, 1)%Q) (Some (4, 5, 4)%Q) =
    Raise InvalidRangeError /\
  TTInventory.read sample_inventory "P" (Some (1, 5, 1)%Q) None <>
    Raise InvalidRangeError.
Proof.
  destruct (read_rejects_invalid_range sample_inventory "P" sample_meta
              (Some (1, 5, 1)%Q) (Some (4, 5, 4)%Q) sample_meta_recorded)
    as [Hiff _].
  destruct (read_rejects_invalid_range sample_inventory "P" sample_meta
              (Some (1, 5, 1)%Q) None sample_meta_recorded)
    as [_ Hone].
  split.
  - apply Hiff. eexists _, _. split; [reflexivity|]. split; [reflexivity|].
    exists Ax1. vm_compute. discriminate.
  - apply Hone. right. reflexivity.
Defined.

(** C9 (read error taxonomy).  Without a recorded geometry [read] raises
    the missing-[meta] error whatever the key and the bounds are, so before
    any index is computed or any field is built.  For a key without a
    dataset [read] never returns a field; it raises the missing-dataset
    error once the geometry is there, the bounds pass the range check and
    the recorded field type is one it can rebuild. *)
Theorem read_error_taxonomy {V} (self : TTInventory.t V) (key : string)
    (min_coords max_coords : option (vec3 Q)) :
  (H5.meta (TTInventory._f5 self) = None ->
   TTInventory.read self key min_coords max_coords = Raise GeometryUnavailableError) /\
  (H5.dataset (TTInventory._f5 self) key = None ->
   (exists e, TTInventory.read self key min_coords max_coords = Raise e) /\
   forall g,
     H5.meta (TTInventory._f5 self) = Some g ->
     TTInventory.invalid_range min_coords max_coords = false ->
     recognized_field_type (H5.attr_field_type g) ->
     TTInventory.read self key min_coords max_coords = Raise (KeyNotFoundError key)).
Proof.
  split.
  - intros Hmeta. unfold TTInventory.read. rewrite Hmeta. reflexivity.
  - intros Hkey. split.
    + destruct (TTInventory.read self key min_coords max_coords) as [field|e] eqn:E;
        [|eauto].
      apply read_Ok_inv in E as (g & dset & _ & Hdset & _). congruence.
    + intros g Hmeta Hrange Htype. unfold TTInventory.read.
      rewrite Hmeta, Hrange, (new_field_recognized _ _ Htype), Hkey. reflexivity.
Qed.

Lemma read_error_taxonomy_witness :
  TTInventory.read new_inventory "P" (Some (4, 4, 4)%Q) (Some (1, 1, 1)%Q) =
    Raise GeometryUnavailableError /\
  TTInventory.read sample_inventory "S" (Some (1, 1, 1)%Q) (Some (4, 4, 4)%Q) =
    Raise (KeyNotFoundError "S").
Proof.
  split.
  - apply (read_error_taxonomy new_inventory "P"). reflexivity.
  - apply (read_error_taxonomy sample_inventory "S"
             (Some (1, 1, 1)%Q) (Some (4, 4, 4)%Q)) with (g := sample_meta).
    + reflexivity.
    + reflexivity.
    + reflexivity.
    + left. reflexivity.
Defined.

(** ** The cached node mesh *)

Section NodeCache.
Import TTInventory.
Context {V : Type}.
Implicit Types (self : TTInventory.t V) (built : mesh).

Lemma nodes_cached self built :
  _nodes self = Some built -> nodes self = (Ok built, self).
Proof. intros H. unfold nodes. rewrite H. reflexivity. Qed.

Lemma nodes_Ok self self' built :
  nodes self = (Ok built, self') -> _nodes self' = Some built.
Proof.
  unfold nodes. destruct (_nodes self) as [cached|] eqn:Hcache.
  - intros [= <- <-]. exact Hcache.
  - destruct (build_nodes self); intros [= <- <-]. reflexivity.
Qed.

Lemma add_keeps_cache self field key :
  _nodes (snd (add self field key)) = _nodes self.
Proof. unfold add. destruct (add_f5 field key (_f5 self)). reflexivity. Qed.

Lemma set_mode_keeps_cache self value reopened :
  _nodes (snd (set_mode self value reopened)) = _nodes self.
Proof. unfold set_mode. destruct reopened; reflexivity. Qed.

Lemma after_call_keeps_cache self built (c : call V) :
  _nodes self = Some built -> _nodes (after_call self c) = Some built.
Proof.
  intros H. destruct c as [field key | key lo hi | | value reopened]; simpl.
  - rewrite add_keeps_cache. exact H.
  - exact H.
  - rewrite (nodes_cached _ _ H). exact H.
  - rewrite set_mode_keeps_cache. exact H.
Qed.

Lemma after_calls_keeps_cache (calls : list (call V)) self built :
  _nodes self = Some built -> _nodes (after_calls self calls) = Some built.
Proof.
  revert self. induction calls as [|c calls IH]; intros self H; [exact H|].
  apply IH, after_call_keeps_cache, H.
Qed.

End NodeCache.

(** C10 (stale node-mesh cache).  Once an access to [nodes] has returned a
    mesh, every later access returns that same mesh and leaves the object
    as it is, after any sequence of [add], [read], [nodes] and mode changes,
    whatever file the mode change reopens: the recorded geometry is not
    read again and nothing resets the cache. *)
Theorem nodes_cache_never_invalidated {V} (self self1 : TTInventory.t V)
    (built : TTInventory.mesh) (calls : list (call V)) :
  TTInventory.nodes self = (Ok built, self1) ->
  TTInventory.nodes (after_calls self1 calls) = (Ok built, after_calls self1 calls).
Proof.
  intros Hfirst. apply nodes_cached, after_calls_keeps_cache.
  exact (nodes_Ok _ _ _ Hfirst).
Qed.

Lemma nodes_cache_never_invalidated_witness :
  exists built self1,
    TTInventory.nodes sample_inventory = (Ok built, self1) /\
    let later :=
      after_calls self1 [CallSetMode "w" (Ok H5.empty); CallAdd layer_field "P"] in
    H5.meta (TTInventory._f5 later) = Some layer_meta /\
    TTInventory.nodes later = (Ok built, later) /\
    TTInventory.build_nodes later <> Ok built.
Proof.
  destruct (TTInventory.nodes sample_inventory) as [[built|e] self1] eqn:Hfirst;
    [|discriminate Hfirst].
  exists built, self1. split; [reflexivity|].
  intros later.
  split; [|split].
  - vm_compute in Hfirst. injection Hfirst as <- <-. reflexivity.
  - apply (nodes_cache_never_invalidated sample_inventory self1 built), Hfirst.
  - vm_compute in Hfirst. injection Hfirst as <- <-.
    intros H.
    apply (f_equal (fun r => match r with Ok m => length m | Raise _ => 0%nat end)) in H.
    vm_compute in H. discriminate H.
Defined.

(** * Further properties of the inventory *)

(** ** The window of a successful read *)

(** X1.  Whatever the bounds, a successful read on a grid with at least one
    node per axis returns a non-empty window of the grid: on every axis the
    returned [min_coords] is the coordinate of a grid node [i >= 0], the
    returned [npts] is at least 1, and the window ends inside the grid. *)
Theorem read_window_never_empty {V} (self : TTInventory.t V) (key : string)
    (min_coords max_coords : option (vec3 Q)) (field : Field.t V)
    (g : H5.meta_group) :
  TTInventory.read self key min_coords max_coords = Ok field ->
  H5.meta (TTInventory._f5 self) = Some g ->
  positive_npts g ->
  forall ax, exists i : Z,
    0 <= i /\
    1 <= v3get (Field.npts field) ax /\
    i + v3get (Field.npts field) ax <= v3get (H5.ds_npts g) ax /\
    v3get (Field.min_coords field) ax = node_coord g ax i.
Proof.
  intros Hread Hmeta Hn ax.
  apply read_Ok_inv in Hread as (g' & dset & Hmeta' & _ & _ & _ & ->).
  rewrite Hmeta in Hmeta'. injection Hmeta' as <-.
  destruct (read_window_inside g Hn min_coords max_coords) as [Hinside Hlt].
  specialize (Hinside ax). specialize (Hlt ax).
  exists (v3get (TTInventory.idx_start_of g min_coords) ax).
  rewrite window_field_npts, window_field_min.
  repeat split; lia.
Qed.

Lemma read_window_never_empty_witness :
  exists field,
    TTInventory.read sample_inventory "P"
      (Some (40, -7, 3)%Q) (Some (50, -2, 7 # 2)%Q) = Ok field /\
    Field.npts field = (1, 1, 2) /\
    forall ax, exists i : Z,
      0 <= i /\ 1 <= v3get (Field.npts field) ax /\
      i + v3get (Field.npts field) ax <= v3get (H5.ds_npts sample_meta) ax /\
      v3get (Field.min_coords field) ax = node_coord sample_meta ax i.
Proof.
  exists (window_field sample_meta (sample_values 10 10 10)
            (Some (40, -7, 3)%Q) (Some (50, -2, 7 # 2)%Q)).
  split; [reflexivity|]. split; [reflexivity|].
  apply (read_window_never_empty sample_inventory "P"
           (Some (40, -7, 3)%Q) (Some (50, -2, 7 # 2)%Q) _ sample_meta).
  - reflexivity.
  - reflexivity.
  - exact sample_meta_positive_npts.
Defined.

(** ** Field types that cannot be read back *)

Lemma new_field_unrecognized {V} (t cs : string) :
  ~ recognized_field_type t ->
  TTInventory.new_field (V := V) t cs = Raise (ValueError (msg_unrecognized_field_type t)).
Proof.
  intros Hno. unfold TTInventory.new_field.
  destruct (String.eqb_spec t "scalar") as [-> | _];
    [exfalso; apply Hno; left; reflexivity|].
  destruct (String.eqb_spec t "vector") as [-> | _];
    [exfalso; apply Hno; right; reflexivity|].
  reflexivity.
Qed.

Lemma read_unrecognized_field_type {V} (self : TTInventory.t V) (key : string)
    (min_coords max_coords : option (vec3 Q)) (g : H5.meta_group) :
  H5.meta (TTInventory._f5 self) = Some g ->
  ~ recognized_field_type (H5.attr_field_type g) ->
  TTInventory.invalid_range min_coords max_coords = false ->
  TTInventory.read self key min_coords max_coords =
  Raise (ValueError (msg_unrecognized_field_type (H5.attr_field_type g))).
Proof.
  intros Hmeta Hno Hrange. unfold TTInventory.read.
  rewrite Hmeta, Hrange, (new_field_unrecognized _ _ Hno). reflexivity.
Qed.

(** X2.  [add] does not look at the value of [field_type] on the first
    write.  When the first [add] on a container succeeds with a field whose
    type is neither "scalar" nor "vector", every later [read] whose bounds
    pass the range check raises the unrecognized-field-type [ValueError],
    for the key just written as for any other key. *)
Theorem add_accepts_unreadable_field_type {V} (self self' : TTInventory.t V)
    (field : Field.t V) (key : string) :
  H5.meta (TTInventory._f5 self) = None ->
  TTInventory.add self field key = (Ok true, self') ->
  ~ recognized_field_type (Field.field_type field) ->
  forall key' min_coords max_coords,
    TTInventory.invalid_range min_coords max_coords = false ->
    TTInventory.read self' key' min_coords max_coords =
    Raise (ValueError (msg_unrecognized_field_type (Field.field_type field))).
Proof.
  unfold TTInventory.add. intros Hmeta Hadd Hno key' min_coords max_coords Hrange.
  rewrite (add_f5_first _ _ _ Hmeta) in Hadd.
  destruct (H5.dataset (TTInventory._f5 self) key); [discriminate|].
  injection Hadd as <-.
  apply (read_unrecognized_field_type _ _ _ _ (meta_of_field field));
    [reflexivity|exact Hno|exact Hrange].
Qed.

Lemma add_accepts_unreadable_field_type_witness :
  TTInventory.add new_inventory tensor_field "T" =
    (Ok true, snd (TTInventory.add new_inventory tensor_field "T")) /\
  TTInventory.read (snd (TTInventory.add new_inventory tensor_field "T")) "T"
    None None = Raise (ValueError "Unrecognized field type: tensor").
Proof.
  split; [reflexivity|].
  apply (add_accepts_unreadable_field_type new_inventory _ tensor_field "T").
  - reflexivity.
  - reflexivity.
  - intros [H | H]; discriminate H.
  - reflexivity.
Defined.

(** ** What [add] writes *)

Section AddWrites.
Import TTInventory.
Context {V : Type}.
Implicit Types (self : TTInventory.t V) (field : Field.t V).

Lemma dataset_after_store_other (meta_now : option H5.meta_group)
    (f5 : H5.File V) (key key' : string) (values : array3 V) :
  key' <> key ->
  H5.dataset (H5.mk_file meta_now (data_with f5 key values)) key' =
  H5.dataset f5 key'.
Proof.
  intros Hne. unfold H5.dataset, data_with. simpl.
  rewrite lookup_insert_ne by congruence.
  destruct (H5.data f5); [reflexivity|apply lookup_empty].
Qed.

(** The file after [add], in the three ways the call can end. *)
Lemma add_outcomes self field key :
  (exists g,
     H5.meta (_f5 self) = Some g /\ ~ geometry_matches field g /\
     add self field key = (Raise GeometryMismatchError, self)) \/
  (exists dset,
     H5.dataset (_f5 self) key = Some dset /\
     (forall g, H5.meta (_f5 self) = Some g -> geometry_matches field g) /\
     add self field key =
       (Raise KeyConflictError,
        with_f5 self
          (H5.mk_file
             (Some (default (meta_of_field field) (H5.meta (_f5 self))))
             (H5.data (_f5 self))))) \/
  (H5.dataset (_f5 self) key = None /\
   (forall g, H5.meta (_f5 self) = Some g -> geometry_matches field g) /\
   add self field key =
     (Ok true,
      with_f5 self
        (H5.mk_file
           (Some (default (meta_of_field field) (H5.meta (_f5 self))))
           (data_with (_f5 self) key (Field.values field))))).
Proof.
  unfold add. destruct (H5.meta (_f5 self)) as [g|] eqn:Hmeta.
  - destruct (geometry_matches_or_not field g) as [Hsame | Hno].
    + right. rewrite (add_f5_match _ _ _ _ Hmeta Hsame).
      destruct (H5.dataset (_f5 self) key) as [dset|] eqn:Hkey.
      * left. exists dset. split; [reflexivity|]. split; [intros ? [= <-]; exact Hsame|].
        simpl. rewrite <- Hmeta, file_eta. reflexivity.
      * right. split; [reflexivity|]. split; [intros ? [= <-]; exact Hsame|].
        reflexivity.
    + left. exists g. rewrite (add_f5_mismatch _ _ _ _ Hmeta Hno), with_f5_same.
      auto.
  - right. rewrite (add_f5_first _ _ _ Hmeta).
    destruct (H5.dataset (_f5 self) key) as [dset|] eqn:Hkey.
    + left. exists dset. split; [reflexivity|]. split; [discriminate|]. reflexivity.
    + right. split; [reflexivity|]. split; [discriminate|]. reflexivity.
Qed.

End AddWrites.

(** X3.  The first successful [add] on a container records the geometry of
    its field: afterwards the properties [min_coords], [node_intervals] and
    [npts] return the field's vectors, [max_coords] returns the field's
    upper corner, and the values are stored under the key. *)
Theorem first_add_records_geometry {V} (self self' : TTInventory.t V)
    (field : Field.t V) (key : string) :
  H5.meta (TTInventory._f5 self) = None ->
  TTInventory.add self field key = (Ok true, self') ->
  TTInventory.min_coords self' = Ok (Field.min_coords field) /\
  TTInventory.node_intervals self' = Ok (Field.node_intervals field) /\
  TTInventory.npts self' = Ok (Field.npts field) /\
  TTInventory.max_coords self' = Ok (Field.max_coords field) /\
  H5.dataset (TTInventory._f5 self') key = Some (Field.values field).
Proof.
  unfold TTInventory.add. intros Hmeta Hadd.
  rewrite (add_f5_first _ _ _ Hmeta) in Hadd.
  destruct (H5.dataset (TTInventory._f5 self) key); [discriminate|].
  injection Hadd as <-.
  repeat split; try reflexivity. apply dataset_after_store.
Qed.

Lemma first_add_records_geometry_witness :
  TTInventory.npts layer_inventory = Ok (4, 3, 1) /\
  TTInventory.max_coords layer_inventory = Ok (Field.max_coords layer_field).
Proof.
  destruct (first_add_records_geometry new_inventory layer_inventory layer_field "P")
    as (_ & _ & Hnpts & Hmax & _); [reflexivity|reflexivity|].
  split; [exact Hnpts|exact Hmax].
Defined.


(** X5.  [add] with one key never touches the dataset of another key,
    whether it returns or raises. *)
Theorem add_leaves_other_keys {V} (self : TTInventory.t V) (field : Field.t V)
    (key key' : string) :
  key' <> key ->
  H5.dataset (TTInventory._f5 (snd (TTInventory.add self field key))) key' =
  H5.dataset (TTInventory._f5 self) key'.
Proof.
  intros Hne.
  destruct (add_outcomes self field key)
    as [(g & _ & _ & ->) | [(dset & _ & _ & ->) | (_ & _ & ->)]]; simpl.
  - reflexivity.
  - reflexivity.
  - apply dataset_after_store_other, Hne.
Qed.

Lemma add_leaves_other_keys_witness :
  H5.dataset
    (TTInventory._f5 (snd (TTInventory.add sample_inventory second_field "S"))) "P"
  = Some (sample_values 10 10 10).
Proof.
  rewrite (add_leaves_other_keys sample_inventory second_field "S" "P")
    by discriminate.
  reflexivity.
Defined.



(** ** Invariants over sequences of calls *)

Section CallInvariants.
Import TTInventory.
Context {V : Type}.
Implicit Types (self : TTInventory.t V) (field : Field.t V).

Lemma add_keeps_meta self field key g :
  H5.meta (_f5 self) = Some g ->
  H5.meta (_f5 (snd (add self field key))) = Some g.
Proof.
  intros Hmeta.
  destruct (add_outcomes self field key)
    as [(g' & _ & _ & ->) | [(dset & _ & _ & ->) | (_ & _ & ->)]]; simpl;
    rewrite ?Hmeta; reflexivity.
Qed.

Lemma nodes_keeps_f5 self : _f5 (snd (nodes self)) = _f5 self.
Proof.
  unfold nodes. destruct (_nodes self); [reflexivity|].
  destruct (build_nodes self); reflexivity.
Qed.

Lemma add_keeps_consistent_shapes self field key :
  consistent_shapes (_f5 self) ->
  has_shape (Field.npts field) (Field.values field) ->
  consistent_shapes (_f5 (snd (add self field key))).
Proof.
  intros Hcons Hshape.
  destruct (add_outcomes self field key)
    as [(g & _ & _ & ->) | [(dset & Hkey & _ & ->) | (Hkey & Hall & ->)]]; simpl.
  - exact Hcons.
  - destruct (Hcons key dset Hkey) as (g & Hmeta & _).
    rewrite Hmeta. simpl. rewrite <- Hmeta, file_eta. exact Hcons.
  - intros key' dset' Hkey'.
    destruct (decide (key' = key)) as [-> | Hne].
    + rewrite dataset_after_store in Hkey'. injection Hkey' as <-.
      eexists. split; [reflexivity|].
      destruct (H5.meta (_f5 self)) as [g|] eqn:Hmeta; simpl.
      * destruct (Hall g eq_refl) as (_ & _ & _ & _ & <-). exact Hshape.
      * exact Hshape.
    + rewrite dataset_after_store_other in Hkey' by exact Hne.
      destruct (Hcons key' dset' Hkey') as (g & Hmeta & Hdset).
      exists g. simpl. rewrite Hmeta. split; [reflexivity|exact Hdset].
Qed.

End CallInvariants.

(** X7.  The recorded geometry is fixed by the first write: once the
    [meta] group exists, no sequence of [add], [read] and [nodes] calls on
    the same handle changes it, whatever the fields and keys are and
    whether the calls return or raise. *)
Theorem recorded_geometry_is_fixed {V} (self : TTInventory.t V)
    (g : H5.meta_group) (calls : list (call V)) :
  H5.meta (TTInventory._f5 self) = Some g ->
  Forall keeps_handle calls ->
  H5.meta (TTInventory._f5 (after_calls self calls)) = Some g.
Proof.
  intros Hmeta Hcalls. revert self Hmeta.
  induction Hcalls as [|c calls Hc _ IH]; intros self Hmeta; [exact Hmeta|].
  apply IH. destruct c as [field key | key lo hi | | value reopened]; simpl.
  - apply add_keeps_meta, Hmeta.
  - exact Hmeta.
  - rewrite nodes_keeps_f5. exact Hmeta.
  - destruct Hc.
Qed.

Lemma recorded_geometry_is_fixed_witness :
  H5.meta
    (TTInventory._f5
       (after_calls sample_inventory
          [CallAdd layer_field "L"; CallNodes; CallAdd second_field "S";
           CallAdd tensor_field "P"]))
  = Some sample_meta.
Proof.
  apply recorded_geometry_is_fixed.
  - reflexivity.
  - repeat constructor.
Defined.

Lemma read_reconstructs_geometry_shape {V} (self : TTInventory.t V) (key : string)
    (min_coords max_coords : option (vec3 Q)) (field : Field.t V) :
  TTInventory.read self key min_coords max_coords = Ok field ->
  exists g dset,
    H5.meta (TTInventory._f5 self) = Some g /\
    H5.dataset (TTInventory._f5 self) key = Some dset /\
    (positive_npts g -> has_shape (H5.ds_npts g) dset ->
     has_shape (Field.npts field) (Field.values field)).
Proof.
  intros Hread.
  apply read_Ok_inv in Hread as (g & dset & Hmeta & Hdset & _ & _ & ->).
  exists g, dset. split; [exact Hmeta|]. split; [exact Hdset|].
  intros Hn Hshape.
  destruct (read_window_inside g Hn min_coords max_coords) as [Hinside _].
  apply (slice3_shape _ _ (H5.ds_npts g)); assumption.
Qed.

(** X8.  Stored arrays keep the recorded shape.  On a container whose
    stored arrays all have the recorded shape, after any sequence of calls
    in which every added field carries values of its own [npts] shape and
    every mode change reopens a container of that kind, every stored array
    still has the recorded shape; so on a grid with at least one node per
    axis the values of every successful read have the shape of the
    returned [npts]. *)
Theorem stored_arrays_keep_recorded_shape {V} (self : TTInventory.t V)
    (calls : list (call V)) :
  consistent_shapes (TTInventory._f5 self) ->
  Forall well_shaped_call calls ->
  let later := after_calls self calls in
  consistent_shapes (TTInventory._f5 later) /\
  forall key min_coords max_coords field g,
    TTInventory.read later key min_coords max_coords = Ok field ->
    H5.meta (TTInventory._f5 later) = Some g ->
    positive_npts g ->
    has_shape (Field.npts field) (Field.values field).
Proof.
  intros Hcons Hcalls later.
  assert (consistent_shapes (TTInventory._f5 later)) as Hlater.
  { subst later. revert self Hcons.
    induction Hcalls as [|c calls Hc _ IH]; intros self Hcons; [exact Hcons|].
    apply IH. destruct c as [field key | key lo hi | | value [f5|e]]; simpl.
    - apply add_keeps_consistent_shapes; assumption.
    - exact Hcons.
    - rewrite nodes_keeps_f5. exact Hcons.
    - exact Hc.
    - exact Hcons. }
  split; [exact Hlater|].
  intros key min_coords max_coords field g Hread Hmeta Hn.
  destruct (read_reconstructs_geometry_shape later key min_coords max_coords field
              Hread) as (g' & dset & Hmeta' & Hdset & Hshape).
  rewrite Hmeta in Hmeta'. injection Hmeta' as <-.
  destruct (Hlater key dset Hdset) as (g' & Hmeta' & Hstored).
  rewrite Hmeta in Hmeta'. injection Hmeta' as <-.
  apply Hshape; assumption.
Qed.

Lemma empty_file_consistent {V} : consistent_shapes (H5.empty (V := V)).
Proof. intros key dset H. discriminate H. Qed.

Lemma stored_arrays_keep_recorded_shape_witness :
  consistent_shapes
    (TTInventory._f5
       (after_calls new_inventory
          [CallAdd sample_field "P"; CallAdd layer_field "L"; CallNodes;
           CallSetMode "r" (Raise (ValueError "mode"))])).
Proof.
  apply (stored_arrays_keep_recorded_shape new_inventory).
  - exact empty_file_consistent.
  - constructor; [apply sample_values_shape; lia|].
    constructor; [apply sample_values_shape; lia|].
    repeat constructor.
Defined.

(** ** Stored datasets are never replaced *)

Section StoredDatasets.
Import TTInventory.
Context {V : Type}.
Implicit Types (self : TTInventory.t V) (field : Field.t V).

Lemma add_keeps_dataset self field key key' dset :
  H5.dataset (_f5 self) key' = Some dset ->
  H5.dataset (_f5 (snd (add self field key))) key' = Some dset.
Proof.
  intros Hkey'.
  destruct (add_outcomes self field key)
    as [(g & _ & _ & ->) | [(d & _ & _ & ->) | (Hkey & _ & ->)]]; simpl.
  - exact Hkey'.
  - exact Hkey'.
  - rewrite dataset_after_store_other; [exact Hkey'|].
    intros ->. congruence.
Qed.

(** [read] looks at the [meta] group and at one dataset only. *)
Lemma read_depends_on_meta_and_dataset self1 self2 key min_coords max_coords :
  H5.meta (_f5 self1) = H5.meta (_f5 self2) ->
  H5.dataset (_f5 self1) key = H5.dataset (_f5 self2) key ->
  read self1 key min_coords max_coords = read self2 key min_coords max_coords.
Proof. intros Hmeta Hkey. unfold read. rewrite Hmeta, Hkey. reflexivity. Qed.

Lemma after_calls_keep_dataset (calls : list (call V)) self key dset g :
  Forall keeps_handle calls ->
  H5.meta (_f5 self) = Some g ->
  H5.dataset (_f5 self) key = Some dset ->
  H5.meta (_f5 (after_calls self calls)) = Some g /\
  H5.dataset (_f5 (after_calls self calls)) key = Some dset.
Proof.
  intros Hcalls. revert self.
  induction Hcalls as [|c calls Hc _ IH]; intros self Hmeta Hkey; [auto|].
  destruct c as [field key' | key' lo hi | | value reopened]; simpl.
  - apply IH; [apply add_keeps_meta, Hmeta|apply add_keeps_dataset, Hkey].
  - apply IH; assumption.
  - apply IH; rewrite nodes_keeps_f5; assumption.
  - destruct Hc.
Qed.

End StoredDatasets.

(** X9.  A stored dataset is never replaced: on a container with a
    recorded geometry, after any sequence of [add], [read] and [nodes] calls
    on the same handle (any fields, any keys, returning or raising), every
    read of an existing key has the outcome it had before. *)
Theorem reads_of_stored_key_are_stable {V} (self : TTInventory.t V)
    (key : string) (g : H5.meta_group) (dset : array3 V) (calls : list (call V)) :
  H5.meta (TTInventory._f5 self) = Some g ->
  H5.dataset (TTInventory._f5 self) key = Some dset ->
  Forall keeps_handle calls ->
  forall min_coords max_coords,
    TTInventory.read (after_calls self calls) key min_coords max_coords =
    TTInventory.read self key min_coords max_coords.
Proof.
  intros Hmeta Hkey Hcalls min_coords max_coords.
  destruct (after_calls_keep_dataset calls self key dset g Hcalls Hmeta Hkey)
    as [Hmeta' Hkey'].
  apply read_depends_on_meta_and_dataset; congruence.
Qed.

Lemma reads_of_stored_key_are_stable_witness :
  TTInventory.read
    (after_calls sample_inventory
       [CallAdd second_field "S"; CallAdd second_field "P"; CallNodes;
        CallAdd layer_field "L"])
    "P" (Some (1, 1, 1)%Q) (Some (2, 2, 2)%Q)
  = TTInventory.read sample_inventory "P" (Some (1, 1, 1)%Q) (Some (2, 2, 2)%Q).
Proof.
  apply (reads_of_stored_key_are_stable sample_inventory "P" sample_meta
           (sample_values 10 10 10)).
  - reflexivity.
  - reflexivity.
  - repeat constructor.
Defined.

(** ** Bounds on one side, and requests that miss the grid *)

Lemma valid_range_lt (lo hi : vec3 Q) :
  TTInventory.invalid_range (Some lo) (Some hi) = false ->
  forall ax, (v3get lo ax < v3get hi ax)%Q.
Proof.
  unfold TTInventory.invalid_range. intros H ax.
  pose proof (proj1 (np_any_false _) H ax) as Hax. rewrite v3get_v3zip in Hax.
  apply Qnot_le_lt. intros Hle. apply Qle_bool_iff in Hle. congruence.
Qed.





(** ** Requests on grid nodes, and nested requests *)

Section NodesAndNesting.
Import TTInventory.
Variable g : H5.meta_group.
Hypothesis intervals_pos : positive_intervals g.

Lemma node_coord_lt ax (i j : Z) :
  i < j -> (node_coord g ax i < node_coord g ax j)%Q.
Proof.
  intros Hij. unfold node_coord. apply Qplus_lt_r.
  apply Qmult_lt_r; [apply intervals_pos|]. rewrite <- Zlt_Qlt. exact Hij.
Qed.

Lemma node_coord_origin ax :
  (node_coord g ax 0 == v3get (H5.ds_min_coords g) ax)%Q.
Proof. unfold node_coord. ring. Qed.

Lemma floor_of_node x ax (a : Z) :
  (v3get x ax == node_coord g ax a)%Q -> Qfloor (quotient_on g x ax) = a.
Proof.
  intros Hx. apply Z.le_antisymm.
  - apply Z.le_trans with (Qfloor (inject_Z a)); [|rewrite Qfloor_Z; lia].
    apply Qfloor_resp_le.
    apply (quotient_le_index _ _ (intervals_pos ax)).
    rewrite Hx. apply Qle_refl.
  - apply (floor_is_greatest _ _ (intervals_pos ax)).
    rewrite Hx. apply Qle_refl.
Qed.

Lemma ceiling_of_node x ax (b : Z) :
  (v3get x ax == node_coord g ax b)%Q -> Qceiling (quotient_on g x ax) = b.
Proof.
  intros Hx. apply Z.le_antisymm.
  - apply (ceiling_is_least _ _ (intervals_pos ax)).
    rewrite Hx. apply Qle_refl.
  - apply Z.le_trans with (Qceiling (inject_Z b)); [rewrite Qceiling_Z; lia|].
    apply Qceiling_resp_le.
    apply (index_le_quotient _ _ (intervals_pos ax)).
    rewrite Hx. apply Qle_refl.
Qed.

Lemma quotient_on_mono x y ax :
  (v3get x ax <= v3get y ax)%Q -> (quotient_on g x ax <= quotient_on g y ax)%Q.
Proof.
  intros Hxy. unfold quotient_on.
  apply (Qmult_le_r _ _ _ (intervals_pos ax)).
  rewrite !(quotient_times_interval _ _ (intervals_pos ax)). lra.
Qed.

End NodesAndNesting.





(** ** The node mesh *)

Section Linspace.
Import TTInventory.
Local Open Scope Q_scope.

Lemma np_linspace_length (start stop : Q) (num : Z) :
  length (np_linspace start stop num) = Z.to_nat num.
Proof.
  unfold np_linspace. destruct (1 <? num)%Z;
    rewrite ?length_insert, length_fmap, length_seqZ; reflexivity.
Qed.

(** With the stop value [start + d (num - 1)], element [i] is
    [start + i d]. *)
Lemma np_linspace_lookup (start d : Q) (num : Z) (i : nat) :
  (Z.of_nat i < num)%Z ->
  exists x,
    np_linspace start (start + d * inject_Z (num - 1)) num !! i = Some x /\
    x == start + inject_Z (Z.of_nat i) * d.
Proof.
  intros Hi. unfold np_linspace.
  set (stop := start + d * inject_Z (num - 1)).
  set (step := (stop - start) / inject_Z (num - 1)).
  assert (((fun k : Z => inject_Z k * step + start) <$> seqZ 0 num) !! i =
          Some (inject_Z (Z.of_nat i) * step + start)) as Hplain.
  { rewrite list_lookup_fmap, lookup_seqZ_lt by exact Hi. reflexivity. }
  destruct (Z.ltb_spec 1 num) as [Hmany | Hone].
  - destruct (decide (Z.to_nat (num - 1) = i)) as [<- | Hne].
    + exists stop. split.
      * apply list_lookup_insert_eq. rewrite length_fmap, length_seqZ. lia.
      * rewrite Z2Nat.id by lia. unfold stop. ring.
    + exists (inject_Z (Z.of_nat i) * step + start). split.
      * rewrite list_lookup_insert_ne by exact Hne. exact Hplain.
      * unfold step, stop. field.
        intros Hzero. change 0 with (inject_Z 0) in Hzero.
        pose proof (proj1 (inject_Z_injective _ _) Hzero). lia.
  - exists (inject_Z (Z.of_nat i) * step + start). split; [exact Hplain|].
    replace (Z.of_nat i) with 0%Z by lia. change (inject_Z 0) with 0. ring.
Qed.

Lemma np_meshgrid_get (xs ys zs : list Q) (i j k : nat) (x y z : Q) :
  xs !! i = Some x -> ys !! j = Some y -> zs !! k = Some z ->
  array3_get (np_meshgrid_ij xs ys zs) i j k = Some (x, y, z).
Proof.
  intros Hx Hy Hz. unfold array3_get, np_meshgrid_ij.
  rewrite list_lookup_fmap, Hx. simpl.
  rewrite list_lookup_fmap, Hy. simpl.
  rewrite list_lookup_fmap, Hz. reflexivity.
Qed.

Lemma np_meshgrid_shape (xs ys zs : list Q) :
  has_shape (Z.of_nat (length xs), Z.of_nat (length ys), Z.of_nat (length zs))
    (np_meshgrid_ij xs ys zs).
Proof.
  unfold np_meshgrid_ij. split.
  - rewrite length_fmap. reflexivity.
  - apply Forall_fmap, Forall_forall. intros x _. simpl. split.
    + rewrite length_fmap. reflexivity.
    + apply Forall_fmap, Forall_forall. intros y _. simpl.
      rewrite length_fmap. reflexivity.
Qed.

End Linspace.



Lemma build_nodes_without_meta {V} (self : TTInventory.t V) :
  H5.meta (TTInventory._f5 self) = None ->
  TTInventory.build_nodes self = Raise (KeyError "meta/min_coords").
Proof.
  intros Hmeta. unfold TTInventory.build_nodes, TTInventory.min_coords.
  rewrite Hmeta. reflexivity.
Qed.

Lemma build_nodes_with_meta {V} (self : TTInventory.t V) (g : H5.meta_group) :
  H5.meta (TTInventory._f5 self) = Some g ->
  exists built, TTInventory.build_nodes self = Ok built.
Proof.
  intros Hmeta.
  unfold TTInventory.build_nodes, TTInventory.max_coords, TTInventory.min_coords,
    TTInventory.node_intervals, TTInventory.npts.
  rewrite Hmeta. eexists. reflexivity.
Qed.

(** X15.  A failed access to [nodes] leaves no cache behind.  While no
    geometry is recorded, [nodes] raises the [KeyError] of the missing
    [meta/min_coords] and the object is unchanged; once an [add] has
    succeeded, the next access returns a mesh and stores it, and the access
    after that returns the same mesh. *)
Theorem nodes_failure_is_not_cached {V} (self self' : TTInventory.t V)
    (field : Field.t V) (key : string) :
  TTInventory._nodes self = None ->
  H5.meta (TTInventory._f5 self) = None ->
  TTInventory.add (snd (TTInventory.nodes self)) field key = (Ok true, self') ->
  TTInventory.nodes self = (Raise (KeyError "meta/min_coords"), self) /\
  exists built,
    fst (TTInventory.nodes self') = Ok built /\
    TTInventory._nodes (snd (TTInventory.nodes self')) = Some built /\
    fst (TTInventory.nodes (snd (TTInventory.nodes self'))) = Ok built.
Proof.
  intros Hcache Hmeta Hadd.
  assert (TTInventory.nodes self = (Raise (KeyError "meta/min_coords"), self))
    as Hfail.
  { unfold TTInventory.nodes.
    rewrite Hcache, (build_nodes_without_meta self Hmeta). reflexivity. }
  split; [exact Hfail|].
  rewrite Hfail in Hadd. simpl in Hadd.
  assert (TTInventory._nodes self' = None) as Hcache'.
  { pose proof (add_keeps_cache self field key) as Hkeep.
    rewrite Hadd in Hkeep. simpl in Hkeep. congruence. }
  assert (exists g, H5.meta (TTInventory._f5 self') = Some g) as [g Hmeta'].
  { unfold TTInventory.add in Hadd.
    rewrite (add_f5_first _ _ _ Hmeta) in Hadd.
    destruct (H5.dataset (TTInventory._f5 self) key); [discriminate|].
    injection Hadd as <-. eexists. reflexivity. }
  destruct (build_nodes_with_meta self' g Hmeta') as [built Hbuilt].
  assert (TTInventory.nodes self' =
          (Ok built,
           TTInventory.mk (TTInventory._mode self') (TTInventory._path self')
             (TTInventory._f5 self') (Some built))) as Hfirst.
  { unfold TTInventory.nodes. rewrite Hcache', Hbuilt. reflexivity. }
  exists built. rewrite Hfirst. simpl.
  split; [reflexivity|]. split; reflexivity.
Qed.

Lemma nodes_failure_is_not_cached_witness :
  TTInventory.nodes new_inventory =
    (Raise (KeyError "meta/min_coords"), new_inventory) /\
  exists built,
    fst (TTInventory.nodes layer_inventory) = Ok built /\
    TTInventory._nodes (snd (TTInventory.nodes layer_inventory)) = Some built /\
    fst (TTInventory.nodes (snd (TTInventory.nodes layer_inventory))) = Ok built.
Proof.
  apply (nodes_failure_is_not_cached new_inventory layer_inventory layer_field "P").
  - reflexivity.
  - reflexivity.
  - reflexivity.
Defined.

(** ** Reads against each other and against what was written *)

(** X16.  Two reads of the same key agree where their windows overlap.
    On a container whose stored array has the recorded shape (at least one
    node per axis), for two successful reads with any bounds, a grid node
    that lies in both windows carries the same value in both returned
    fields. *)
Theorem reads_agree_on_shared_nodes {V} (self : TTInventory.t V) (key : string)
    (g : H5.meta_group) (dset : array3 V)
    (lo hi lo' hi' : option (vec3 Q)) (field field' : Field.t V) :
  H5.meta (TTInventory._f5 self) = Some g ->
  H5.dataset (TTInventory._f5 self) key = Some dset ->
  positive_npts g ->
  has_shape (H5.ds_npts g) dset ->
  TTInventory.read self key lo hi = Ok field ->
  TTInventory.read self key lo' hi' = Ok field' ->
  let s := TTInventory.idx_start_of g lo in
  let e := TTInventory.idx_end_of g s hi in
  let s' := TTInventory.idx_start_of g lo' in
  let e' := TTInventory.idx_end_of g s' hi' in
  forall p : vec3 Z,
    (forall ax, v3get s ax <= v3get p ax < v3get e ax) ->
    (forall ax, v3get s' ax <= v3get p ax < v3get e' ax) ->
    array3_get (Field.values field)
      (Z.to_nat (v3get p Ax0 - v3get s Ax0))
      (Z.to_nat (v3get p Ax1 - v3get s Ax1))
      (Z.to_nat (v3get p Ax2 - v3get s Ax2)) =
    array3_get (Field.values field')
      (Z.to_nat (v3get p Ax0 - v3get s' Ax0))
      (Z.to_nat (v3get p Ax1 - v3get s' Ax1))
      (Z.to_nat (v3get p Ax2 - v3get s' Ax2)).
Proof.
  intros Hmeta Hdset Hn Hshape Hread Hread' s e s' e' p Hp Hp'.
  apply read_Ok_inv in Hread as (g1 & d1 & Hm1 & Hd1 & _ & _ & ->).
  apply read_Ok_inv in Hread' as (g2 & d2 & Hm2 & Hd2 & _ & _ & ->).
  rewrite Hmeta in Hm1, Hm2. injection Hm1 as <-. injection Hm2 as <-.
  rewrite Hdset in Hd1, Hd2. injection Hd1 as <-. injection Hd2 as <-.
  destruct (read_window_inside g Hn lo hi) as [Hin _].
  destruct (read_window_inside g Hn lo' hi') as [Hin' _].
  fold s in Hin. fold e in Hin. fold s' in Hin'. fold e' in Hin'.
  assert (forall (a b : vec3 Z),
            window_inside a b (H5.ds_npts g) ->
            (forall ax, v3get a ax <= v3get p ax < v3get b ax) ->
            array3_get (slice3 a b dset)
              (Z.to_nat (v3get p Ax0 - v3get a Ax0))
              (Z.to_nat (v3get p Ax1 - v3get a Ax1))
              (Z.to_nat (v3get p Ax2 - v3get a Ax2)) =
            array3_get dset (Z.to_nat (v3get p Ax0)) (Z.to_nat (v3get p Ax1))
              (Z.to_nat (v3get p Ax2))) as Hat.
  { intros a b Hw Hpa.
    pose proof (Hw Ax0). pose proof (Hw Ax1). pose proof (Hw Ax2).
    pose proof (Hpa Ax0). pose proof (Hpa Ax1). pose proof (Hpa Ax2).
    rewrite (slice3_get a b (H5.ds_npts g)) by (assumption || lia).
    f_equal; lia. }
  unfold window_field. simpl Field.values. fold s e s' e'.
  rewrite (Hat s e Hin Hp), (Hat s' e' Hin' Hp'). reflexivity.
Qed.

Lemma reads_agree_on_shared_nodes_witness :
  exists field field',
    TTInventory.read sample_inventory "P"
      (Some (1, 1, 1)%Q) (Some (5, 5, 5)%Q) = Ok field /\
    TTInventory.read sample_inventory "P" (Some (4, 3, 2)%Q) None = Ok field' /\
    array3_get (Field.values field) 3 3 3 = array3_get (Field.values field') 0 1 2 /\
    array3_get (Field.values field) 3 3 3 = Some 444.
Proof.
  set (field := window_field sample_meta (sample_values 10 10 10)
                  (Some (1, 1, 1)%Q) (Some (5, 5, 5)%Q)).
  set (field' := window_field sample_meta (sample_values 10 10 10)
                   (Some (4, 3, 2)%Q) None).
  exists field, field'.
  split; [reflexivity|]. split; [reflexivity|]. split; [|reflexivity].
  apply (reads_agree_on_shared_nodes sample_inventory "P" sample_meta
           (sample_values 10 10 10)
           (Some (1, 1, 1)%Q) (Some (5, 5, 5)%Q) (Some (4, 3, 2)%Q) None
           field field' sample_meta_recorded sample_dataset_stored
           sample_meta_positive_npts
           (sample_values_shape 10 10 10 ltac:(lia) ltac:(lia) ltac:(lia))
           eq_refl eq_refl (4, 4, 4)).
  - each_axis; vm_compute; (split; [discriminate|reflexivity]).
  - each_axis; vm_compute; (split; [discriminate|reflexivity]).
Defined.

Lemma geometry_matches_own_record {V} (field : Field.t V) :
  geometry_matches field (meta_of_field field).
Proof.
  unfold geometry_matches, meta_of_field. simpl.
  repeat split; intros ax; apply Qeq_refl.
Qed.

(** X17.  What is read is a window of what was written.  After a
    successful [add] of a scalar or vector field, a [read] of the same key
    with bounds that pass the range check succeeds; the recorded geometry
    matches the field's, the returned tags are the field's, the returned
    [node_intervals] are numerically the field's, and the returned values
    are the field's values sliced by the index window of the bounds. *)
Theorem add_then_windowed_read {V} (self self' : TTInventory.t V)
    (field : Field.t V) (key : string) (min_coords max_coords : option (vec3 Q)) :
  TTInventory.add self field key = (Ok true, self') ->
  recognized_field_type (Field.field_type field) ->
  TTInventory.invalid_range min_coords max_coords = false ->
  exists g field',
    H5.meta (TTInventory._f5 self') = Some g /\
    geometry_matches field g /\
    TTInventory.read self' key min_coords max_coords = Ok field' /\
    Field.coord_sys field' = Field.coord_sys field /\
    Field.field_type field' = Field.field_type field /\
    v3Qeq (Field.node_intervals field') (Field.node_intervals field) /\
    Field.values field' =
      slice3 (TTInventory.idx_start_of g min_coords)
        (TTInventory.idx_end_of g (TTInventory.idx_start_of g min_coords) max_coords)
        (Field.values field).
Proof.
  intros Hadd Htype Hrange.
  destruct (add_outcomes self field key)
    as [(g & _ & _ & Hout) | [(dset & _ & _ & Hout) | (Hkey & Hall & Hout)]];
    rewrite Hout in Hadd; try discriminate Hadd.
  injection Hadd as <-.
  set (g := default (meta_of_field field) (H5.meta (TTInventory._f5 self))).
  assert (geometry_matches field g) as Hsame.
  { subst g. destruct (H5.meta (TTInventory._f5 self)) as [g0|]; simpl.
    - apply Hall. reflexivity.
    - apply geometry_matches_own_record. }
  destruct Hsame as (Hcs & Hft & Hmin & Hd & Hnpts).
  exists g, (window_field g (Field.values field) min_coords max_coords).
  split; [reflexivity|].
  split; [repeat split; assumption|].
  split.
  - apply read_Ok; [reflexivity|apply dataset_after_store| |exact Hrange].
    rewrite <- Hft. exact Htype.
  - unfold window_field. simpl.
    split; [symmetry; exact Hcs|]. split; [symmetry; exact Hft|].
    split; [|reflexivity].
    intros ax. apply Qeq_sym, Hd.
Qed.

Lemma add_then_windowed_read_witness :
  exists field',
    TTInventory.read sample_inventory "P"
      (Some (7, 8, 9)%Q) (Some (8, 9, 10)%Q) = Ok field' /\
    Field.values field' = slice3 (7, 8, 9) (9, 10, 10) (Field.values sample_field) /\
    Field.values field' = [[[789]; [799]]; [[889]; [899]]].
Proof.
  destruct (add_then_windowed_read new_inventory sample_inventory sample_field "P"
              (Some (7, 8, 9)%Q) (Some (8, 9, 10)%Q))
    as (g & field' & Hmeta & _ & Hread & _ & _ & _ & Hvalues).
  - reflexivity.
  - left. reflexivity.
  - reflexivity.
  - injection Hmeta as <-. exists field'.
    split; [exact Hread|]. split; [exact Hvalues|].
    rewrite Hvalues. reflexivity.
Defined.
